(** * jira_airflow_generator: ticket text to scheduler job, verified model

    A shallow embedding of [schedule_parser.py], [sql_generator.py] and the
    job assembly of [advertiser_report_generator.py].

    Python [str] values are lists of characters.  The texts of the model
    are ASCII texts: [lower], [isspace], [isdigit], [title] and the regex
    classes [\s], [\d] are those of CPython on the characters 0..127, and a
    character above 127 is a plain symbol (no case, not a blank, not a
    digit); [int] reads a run of digits of any length, where the
    interpreter stops at 4300.  [ascii_text] and [int_max_str_digits] name
    these two limits in the statements that depend on them.
    A pandas Series of strings is a list of strings in index order; a
    raised exception is the [Raise] outcome of a [result]. *)

From Stdlib Require Import List Ascii String ZArith Lia Bool Arith PeanoNat.
Import ListNotations.

Open Scope string_scope.
Open Scope nat_scope.
Open Scope list_scope.

(** [length] is the length of a list throughout (strings are lists). *)
Abbreviation length := Datatypes.length (only parsing).

(** ** Python strings *)

Module PyStr.

Definition str := list ascii.

Definition lit (s : string) : str := list_ascii_of_string s.

Definition code (c : ascii) : nat := nat_of_ascii c.

(** [str.isspace] on one character: TAB..CR, FS..US and the blank; the regex
    class [\s] is the same set for [str] patterns. *)
Definition is_space (c : ascii) : bool :=
  let n := code c in
  ((9 <=? n) && (n <=? 13)) || ((28 <=? n) && (n <=? 32)).

Definition is_digit (c : ascii) : bool :=
  let n := code c in (48 <=? n) && (n <=? 57).

Definition is_upper (c : ascii) : bool :=
  let n := code c in (65 <=? n) && (n <=? 90).

Definition is_lower (c : ascii) : bool :=
  let n := code c in (97 <=? n) && (n <=? 122).

Definition is_alpha (c : ascii) : bool := is_upper c || is_lower c.

Definition lower_char (c : ascii) : ascii :=
  if is_upper c then ascii_of_nat (code c + 32) else c.

Definition upper_char (c : ascii) : ascii :=
  if is_lower c then ascii_of_nat (code c - 32) else c.

(** [s.lower()] *)
Definition lower (s : str) : str := map lower_char s.

Fixpoint str_eqb (a b : str) : bool :=
  match a, b with
  | [], [] => true
  | x :: a', y :: b' => Ascii.eqb x y && str_eqb a' b'
  | _, _ => false
  end.

(** [s.startswith(p)] *)
Fixpoint startswith (p s : str) : bool :=
  match p, s with
  | [], _ => true
  | x :: p', y :: s' => Ascii.eqb x y && startswith p' s'
  | _ :: _, [] => false
  end.

(** [s.endswith(p)] *)
Definition endswith (s p : str) : bool := startswith (rev p) (rev s).

(** [p in s] for strings: [p] occurs as a contiguous substring. *)
Fixpoint contains (p s : str) : bool :=
  startswith p s ||
  match s with
  | [] => false
  | _ :: s' => contains p s'
  end.

(** [s.lstrip()], [s.rstrip()], [s.strip()] *)
Fixpoint lstrip (s : str) : str :=
  match s with
  | c :: s' => if is_space c then lstrip s' else s
  | [] => []
  end.

Definition rstrip (s : str) : str := rev (lstrip (rev s)).

Definition strip (s : str) : str := rstrip (lstrip s).

(** [s.split()] with no argument: the maximal runs of non-blank characters. *)
Fixpoint split_ws (s : str) : list str :=
  match s with
  | [] => []
  | c :: s' =>
      if is_space c then split_ws s'
      else match s' with
           | [] => [[c]]
           | c' :: _ =>
               if is_space c' then [c] :: split_ws s'
               else match split_ws s' with
                    | w :: ws => (c :: w) :: ws
                    | [] => [[c]]
                    end
           end
  end.

(** [sep.join(parts)] *)
Fixpoint join (sep : str) (parts : list str) : str :=
  match parts with
  | [] => []
  | [p] => p
  | p :: ps => p ++ sep ++ join sep ps
  end.

(** [s.split(sep)] for a one-character separator. *)
Fixpoint split_char (sep : ascii) (s : str) : list str :=
  match s with
  | [] => [[]]
  | c :: s' =>
      if Ascii.eqb c sep then [] :: split_char sep s'
      else match split_char sep s' with
           | w :: ws => (c :: w) :: ws
           | [] => [[c]]
           end
  end.

(** [s.replace(old, new)] for a one-character [old]. *)
Definition replace_char (old : ascii) (new : str) (s : str) : str :=
  flat_map (fun c => if Ascii.eqb c old then new else [c]) s.

(** [s.replace(old, new)] in general: leftmost non-overlapping occurrences
    of a non-empty [old]. *)
Fixpoint replace_fuel (fuel : nat) (old new s : str) : str :=
  match fuel with
  | O => s
  | S fuel' =>
      match s with
      | [] => []
      | c :: s' =>
          if startswith old s
          then new ++ replace_fuel fuel' old new (skipn (length old) s)
          else c :: replace_fuel fuel' old new s'
      end
  end.

Definition replace (old new s : str) : str :=
  replace_fuel (S (length s)) old new s.

(** [s.isdigit()] *)
Definition isdigit (s : str) : bool :=
  match s with
  | [] => false
  | _ => forallb is_digit s
  end.

(** [s.capitalize()]: first character upper-cased, the rest lower-cased. *)
Definition capitalize (s : str) : str :=
  match s with
  | [] => []
  | c :: s' => upper_char c :: lower s'
  end.

(** [s.title()]: a letter that follows a non-letter is upper-cased, a letter
    that follows a letter is lower-cased. *)
Fixpoint title_from (prev_cased : bool) (s : str) : str :=
  match s with
  | [] => []
  | c :: s' =>
      (if is_alpha c
       then (if prev_cased then lower_char c else upper_char c)
       else c) :: title_from (is_alpha c) s'
  end.

Definition title (s : str) : str := title_from false s.

(** *** Integers and text *)

Definition digit_val (c : ascii) : Z := Z.of_nat (code c - 48).

Definition digit_char (d : Z) : ascii := ascii_of_nat (48 + Z.to_nat d).

(** value of a run of decimal digits, most significant first *)
Definition digits_value (s : str) : Z :=
  fold_left (fun acc c => (10 * acc + digit_val c)%Z) s 0%Z.

(** Underscores that group digits ([1_000]) are accepted by [int] when each
    stands between two digits. *)
Fixpoint drop_group_marks (prev_digit : bool) (s : str) : option str :=
  match s with
  | [] => if prev_digit then Some [] else None
  | c :: s' =>
      if is_digit c then option_map (cons c) (drop_group_marks true s')
      else if Ascii.eqb c "_" then
             (if prev_digit then
                match s' with
                | d :: _ => if is_digit d then drop_group_marks false s' else None
                | [] => None
                end
              else None)
      else None
  end.

(** [int(s)] in base ten: blanks around, an optional sign, digits.  [None]
    stands for the [ValueError] of a malformed literal.  The interpreter
    also refuses a literal of more than 4300 digits (unless configured
    otherwise); the model reads a literal of any length. *)
Definition py_int (s : str) : option Z :=
  let body := strip s in
  let unsigned (t : str) := option_map digits_value (drop_group_marks false t) in
  match body with
  | c :: t =>
      if Ascii.eqb c "-" then option_map Z.opp (unsigned t)
      else if Ascii.eqb c "+" then unsigned t
      else unsigned body
  | [] => None
  end.

(** decimal digits of a non-negative integer *)
Fixpoint nat_digits (fuel : nat) (n : Z) : str :=
  match fuel with
  | O => [digit_char (n mod 10)%Z]
  | S fuel' =>
      if (n <? 10)%Z then [digit_char n]
      else nat_digits fuel' (n / 10)%Z ++ [digit_char (n mod 10)%Z]
  end.

(** [str(n)], also the rendering of an integer in an f-string *)
Definition str_of_int (n : Z) : str :=
  if (n <? 0)%Z then "-"%char :: nat_digits (Z.to_nat (Z.log2 (- n))) (- n)
  else nat_digits (Z.to_nat (Z.log2 n)) n.

Fixpoint zeros (k : nat) : str :=
  match k with
  | O => []
  | S k' => "0"%char :: zeros k'
  end.

(** the format spec [:0Wd] of an f-string, for a non-negative integer; a
    negative one keeps its sign in front of the padding *)
Definition fmt_0d (width : nat) (n : Z) : str :=
  if (n <? 0)%Z then
    let d := nat_digits (Z.to_nat (Z.log2 (- n))) (- n) in
    "-"%char :: zeros (width - 1 - length d) ++ d
  else
    let d := str_of_int n in
    zeros (width - length d) ++ d.

End PyStr.

Import PyStr.
Coercion lit : string >-> str.

(** ** Outcomes of a call *)

Inductive exn :=
| ValueError | IndexError | KeyError | OverflowError | AttributeError | TypeError
| OSError.

Inductive result (A : Type) :=
| Ok (a : A)
| Raise (e : exn).
Arguments Ok {A} a.
Arguments Raise {A} e.

Definition bind {A B} (m : result A) (k : A -> result B) : result B :=
  match m with
  | Ok a => k a
  | Raise e => Raise e
  end.

Notation "x <- m ;; k" := (bind m (fun x => k))
  (at level 61, m at next level, right associativity).

(** [int(s)] as a call that can raise *)
Definition int_of (s : str) : result Z :=
  match py_int s with
  | Some z => Ok z
  | None => Raise ValueError
  end.

(** [xs[i]] for a list *)
Definition item {A} (xs : list A) (i : nat) : result A :=
  match nth_error xs i with
  | Some x => Ok x
  | None => Raise IndexError
  end.

(** [xs[-1]] *)
Definition item_last {A} (xs : list A) : result A :=
  match rev xs with
  | x :: _ => Ok x
  | [] => Raise IndexError
  end.

(** ** The fragment of Python's [re] the program uses

    Every repetition in the program's patterns is over a single character
    class, so [Rep] carries the class; alternatives, options and groups nest
    freely.  [rmatch] lists the ways a pattern matches at a position in the
    order the backtracking matcher of [re] tries them: the head of the list is
    the match [re] reports. *)

Module Re.

Inductive regex :=
| Eps
| Rep (greedy : bool) (lo : nat) (hi : option nat) (cls : ascii -> bool)
| Seq (r1 r2 : regex)
| Alt (r1 r2 : regex)
| Opt (r : regex)
| Group (k : nat) (r : regex)
| Bol
| Eol.

Record mstate := MState {
  pos : nat;                   (* offset in the subject *)
  rest : str;                  (* the subject from [pos] on *)
  caps : list (nat * str)      (* groups captured so far, latest first *)
}.

Fixpoint run_len (cls : ascii -> bool) (s : str) : nat :=
  match s with
  | c :: s' => if cls c then S (run_len cls s') else 0
  | [] => 0
  end.

(** lengths a repetition may take, in the order they are tried *)
Definition rep_lengths (greedy : bool) (lo : nat) (hi : option nat) (avail : nat)
  : list nat :=
  let top := match hi with Some h => Nat.min h avail | None => avail end in
  let up := seq lo (S top - lo) in
  if greedy then rev up else up.

Definition advance (st : mstate) (k : nat) : mstate :=
  MState (pos st + k) (skipn k (rest st)) (caps st).

Definition set_cap (k : nat) (txt : str) (st : mstate) : mstate :=
  MState (pos st) (rest st) ((k, txt) :: caps st).

Fixpoint rmatch (r : regex) (st : mstate) : list mstate :=
  match r with
  | Eps => [st]
  | Rep g lo hi cls =>
      map (advance st) (rep_lengths g lo hi (run_len cls (rest st)))
  | Seq r1 r2 => flat_map (rmatch r2) (rmatch r1 st)
  | Alt r1 r2 => rmatch r1 st ++ rmatch r2 st
  | Opt r1 => rmatch r1 st ++ [st]
  | Group k r1 =>
      map (fun st' => set_cap k (firstn (pos st' - pos st) (rest st)) st')
          (rmatch r1 st)
  | Bol => if pos st =? 0 then [st] else []
  | Eol =>
      match rest st with
      | [] => [st]
      | [c] => if Ascii.eqb c "010" then [st] else []
      | _ => []
      end
  end.

(** [m.group(k)]; [None] when the group took no part in the match *)
Fixpoint group (k : nat) (cs : list (nat * str)) : option str :=
  match cs with
  | [] => None
  | (j, txt) :: cs' => if j =? k then Some txt else group k cs'
  end.

(** a match: where it starts, where it ends, what it captured *)
Record rematch := ReMatch {
  m_start : nat;
  m_end : nat;
  m_text : str;
  m_caps : list (nat * str)
}.

(** [re.search] from offset [at_] on, [s] being the subject from there *)
Fixpoint search_from (r : regex) (at_ : nat) (s : str) : option rematch :=
  match rmatch r (MState at_ s []) with
  | st :: _ => Some (ReMatch at_ (pos st) (firstn (pos st - at_) s) (caps st))
  | [] =>
      match s with
      | [] => None
      | _ :: s' => search_from r (S at_) s'
      end
  end.

Definition search (r : regex) (s : str) : option rematch := search_from r 0 s.

(** the successive non-overlapping matches of [re.finditer], for a pattern
    that does not match the empty text (none of the program's split or
    findall patterns does); after an empty match the scan moves on by one
    character *)
Fixpoint finditer_from (fuel : nat) (r : regex) (at_ : nat) (s : str)
  : list rematch :=
  match fuel with
  | O => []
  | S fuel' =>
      match search_from r at_ s with
      | None => []
      | Some m =>
          let step :=
            if m_end m =? m_start m then S (m_end m - at_) else m_end m - at_ in
          m :: (if length s <? step then []
                else finditer_from fuel' r (at_ + step) (skipn step s))
      end
  end.

Definition finditer (r : regex) (s : str) : list rematch :=
  finditer_from (S (length s)) r 0 s.

(** [re.findall] for a pattern without groups *)
Definition findall (r : regex) (s : str) : list str :=
  map m_text (finditer r s).

(** [re.split]: the text between the successive matches *)
Fixpoint split_at (ms : list rematch) (from : nat) (s : str) : list str :=
  match ms with
  | [] => [s]
  | m :: ms' =>
      firstn (m_start m - from) s
      :: split_at ms' (m_end m) (skipn (m_end m - from) s)
  end.

Definition split (r : regex) (s : str) : list str :=
  split_at (finditer r s) 0 s.

(** *** Pattern syntax *)

Definition chr (c : ascii) : regex := Rep true 1 (Some 1) (Ascii.eqb c).
Definition cls1 (p : ascii -> bool) : regex := Rep true 1 (Some 1) p.
Definition plus (p : ascii -> bool) : regex := Rep true 1 None p.
Definition star (p : ascii -> bool) : regex := Rep true 0 None p.
Definition lazy_star (p : ascii -> bool) : regex := Rep false 0 None p.
Definition times (lo hi : nat) (p : ascii -> bool) : regex := Rep true lo (Some hi) p.

(** a literal text *)
Fixpoint text (s : str) : regex :=
  match s with
  | [] => Eps
  | [c] => chr c
  | c :: s' => Seq (chr c) (text s')
  end.

(** a literal text under [re.IGNORECASE] *)
Fixpoint text_nocase (s : str) : regex :=
  match s with
  | [] => Eps
  | [c] => cls1 (fun x => Ascii.eqb (lower_char x) (lower_char c))
  | c :: s' => Seq (cls1 (fun x => Ascii.eqb (lower_char x) (lower_char c)))
                   (text_nocase s')
  end.

(** [.] without [re.DOTALL] *)
Definition dot (c : ascii) : bool := negb (Ascii.eqb c "010").

(** [r1|r2|...] *)
Fixpoint alts (rs : list regex) : regex :=
  match rs with
  | [] => Eps
  | [r] => r
  | r :: rs' => Alt r (alts rs')
  end.

End Re.

Import Re.

(** ** pandas Series of strings *)

(** [Series.drop_duplicates()]: the first occurrence of each value stays *)
Fixpoint drop_duplicates_seen (seen : list str) (rows : list str) : list str :=
  match rows with
  | [] => []
  | x :: rows' =>
      if existsb (str_eqb x) seen then drop_duplicates_seen seen rows'
      else x :: drop_duplicates_seen (x :: seen) rows'
  end.

Definition drop_duplicates (rows : list str) : list str :=
  drop_duplicates_seen [] rows.

(** one row of [Series.str.extract(pat)] for a pattern with two groups *)
Definition extract2 (r : regex) (s : str) : option str * option str :=
  match search r s with
  | Some m => (group 1 (m_caps m), group 2 (m_caps m))
  | None => (None, None)
  end.

(** [Series.str.extract(pat).dropna()]: the rows in which both groups have
    a value *)
Definition extract2_dropna (r : regex) (rows : list str) : list (str * str) :=
  flat_map (fun s => match extract2 r s with
                     | (Some a, Some b) => [(a, b)]
                     | _ => []
                     end) rows.

(** ** schedule_parser.py *)

Module ScheduleParser.

Inductive report_type := Daily | Weekly | Monthly.

Definition report_type_str (t : report_type) : str :=
  match t with
  | Daily => "Daily"
  | Weekly => "Weekly"
  | Monthly => "Monthly"
  end.

(** [re.sub] of the pattern "\s+" by the empty text: every run of blanks
    is deleted *)
Definition remove_blanks (s : str) : str :=
  filter (fun c => negb (is_space c)) s.

Definition standard_start_time : Z := 3.

(** [int(minute_val) if minute_val.isdigit() else 0] *)
Definition minute_of (minute_val : str) : result Z :=
  if isdigit minute_val then int_of minute_val else Ok 0%Z.

(** [timedelta_calculator(cron_value)]: the list
    [[report_type, time_delta_hour, time_delta_minutes]].  The closing test
    [report_type is None] of the source cannot fire: each of the three
    branches assigns [report_type]. *)
Definition timedelta_calculator (cron_value : str)
  : result (report_type * Z * Z) :=
  match cron_value with
  | [] => Raise ValueError
  | _ =>
      let trimmed_cron_value := remove_blanks cron_value in
      let parsed_cron_value := split_ws cron_value in
      if endswith trimmed_cron_value "***" then
        if 2 <=? length parsed_cron_value then
          hour_field <- item parsed_cron_value 1 ;;
          hour <- int_of hour_field ;;
          minute_val <- item parsed_cron_value 0 ;;
          minutes <- minute_of minute_val ;;
          Ok (Daily, (hour - standard_start_time)%Z, minutes)
        else Ok (Daily, 0%Z, 0%Z)
      else
        last_char <- item_last trimmed_cron_value ;;
        if negb (Ascii.eqb last_char "*") then
          weekday_str <- item_last parsed_cron_value ;;
          time_delta_hour <-
            (if isdigit weekday_str then
               weekday <- int_of weekday_str ;;
               hour_field <- item parsed_cron_value 1 ;;
               hour <- int_of hour_field ;;
               let hour_val := (weekday * 24 - (hour - standard_start_time))%Z in
               Ok (hour_val * -1)%Z
             else Ok 0%Z) ;;
          minute_val <- item parsed_cron_value 0 ;;
          minutes <- minute_of minute_val ;;
          Ok (Weekly, time_delta_hour, minutes)
        else Ok (Monthly, 0%Z, 0%Z)
  end.

(** the pattern "(\d+):(\d+)" *)
Definition time_re : regex :=
  Seq (Group 1 (plus is_digit)) (Seq (chr ":") (Group 2 (plus is_digit))).

(** the pattern "(\d+):?(?:\d{{2}})?\s*(am|pm)".  The pattern is a raw string, not an
    f-string, so the doubled braces reach [re] as written: [\d{{2}}] is a
    digit, then the character [{] twice (the quantifier [{2}] applies to the
    brace before it), then [}]. *)
Definition am_pm_re : regex :=
  Seq (Group 1 (plus is_digit))
   (Seq (Opt (chr ":"))
    (Seq (Opt (Seq (cls1 is_digit)
               (Seq (times 2 2 (Ascii.eqb "{")) (chr "}"))))
     (Seq (star is_space)
          (Group 2 (Alt (text "am") (text "pm")))))).

(** the dict literal [weekday_map], in insertion order *)
Definition weekday_map : list (str * Z) :=
  [ (lit "monday", 1%Z); (lit "tuesday", 2%Z); (lit "wednesday", 3%Z);
    (lit "thursday", 4%Z); (lit "friday", 5%Z); (lit "saturday", 6%Z);
    (lit "sunday", 0%Z) ].

(** the loop over [weekday_map.items()] that stops at the first name found
    in the text *)
Fixpoint detect_weekday (names : list (str * Z)) (txt : str) (week_value : Z) : Z :=
  match names with
  | [] => week_value
  | (weekday, value) :: names' =>
      if contains weekday txt then value
      else detect_weekday names' txt week_value
  end.

(** the three-way time zone adjustment *)
Definition adjust_timezone (txt : str) (hour_value : Z) : Z :=
  if contains "ct" txt || contains "cst" txt then (hour_value - 2)%Z
  else if contains "et" txt || contains "est" txt || contains "edt" txt
       then (hour_value - 3)%Z
  else if contains "mt" txt || contains "mst" txt then (hour_value - 1)%Z
  else hour_value.

(** the hour taken from the first row that has an hour and an am/pm marker,
    before the time zone adjustment; [dflt] when no row has one *)
Definition extract_hour (df_lower : list str) (dflt : Z) : result Z :=
  match extract2_dropna am_pm_re df_lower with
  | (hh, marker) :: _ =>
      hour <- int_of hh ;;
      if str_eqb (lower marker) "pm" && (hour <? 12)%Z
      then Ok (hour + 12)%Z
      else Ok hour
  | [] => Ok dflt
  end.

(** the minute taken from the first row with an [H:MM] time *)
Definition extract_minute (df_lower : list str) (dflt : Z) : result Z :=
  match extract2_dropna time_re df_lower with
  | (_, mm) :: _ => int_of mm
  | [] => Ok dflt
  end.

(** [discover_cron(df_and_column)] *)
Definition discover_cron (df_and_column : list str) : result str :=
  let df_lower := drop_duplicates (map lower df_and_column) in
  let minute_value := 0%Z in
  let hour_value := 4%Z in
  let week_value := 1%Z in
  minute_value <- extract_minute df_lower minute_value ;;
  hour_value <- extract_hour df_lower hour_value ;;
  first <- item df_lower 0 ;;
  let hour_value := adjust_timezone first hour_value in
  let hour_value := (hour_value mod 24)%Z in
  let week_value := detect_weekday weekday_map first week_value in
  if contains "daily" first || contains " day" first then
    Ok (str_of_int minute_value ++ lit " " ++ str_of_int hour_value
        ++ lit " * * *")
  else
    Ok (str_of_int minute_value ++ lit " " ++ str_of_int hour_value
        ++ lit " * * " ++ str_of_int week_value).

(** *** Dates *)

(** what [datetime.today()] gives the calls that read the clock *)
Record date := Date { year : Z; month : Z; day : Z }.

Definition is_leap (y : Z) : bool :=
  ((y mod 4 =? 0) && (negb (y mod 100 =? 0) || (y mod 400 =? 0)))%Z.

Definition days_in_month (y m : Z) : Z :=
  (if m =? 2 then (if is_leap y then 29 else 28)
   else if (m =? 4) || (m =? 6) || (m =? 9) || (m =? 11) then 30
   else 31)%Z.

(** the dates [datetime(y, m, d)] accepts *)
Definition valid_date (y m d : Z) : bool :=
  ((1 <=? y) && (y <=? 9999) && (1 <=? m) && (m <=? 12)
   && (1 <=? d) && (d <=? days_in_month y m))%Z.

Definition c_int_max : Z := 2147483647.

(** [datetime(y, m, d)] for non-negative arguments: an argument that does
    not fit a C int is an [OverflowError], a date off the calendar a
    [ValueError] *)
Definition datetime (y m d : Z) : result date :=
  if ((c_int_max <? y) || (c_int_max <? m) || (c_int_max <? d))%Z
  then Raise OverflowError
  else if valid_date y m d then Ok (Date y m d)
  else Raise ValueError.

(** [d.strftime('%Y-%m-%d')], the year on four digits as the library
    documents it (for a year below 1000 some C libraries leave the zeros
    out) *)
Definition strftime_ymd (d : date) : str :=
  fmt_0d 4 (year d) ++ lit "-" ++ fmt_0d 2 (month d) ++ lit "-"
  ++ fmt_0d 2 (day d).

(** [try: ... except ValueError: pass] around a computation of an optional
    value *)
Definition except_ValueError {A} (body : result A) : result (option A) :=
  match body with
  | Ok a => Ok (Some a)
  | Raise ValueError => Ok None
  | Raise e => Raise e
  end.

(** *** discover_timespan *)

(** a value of the union [str | int | None] *)
Inductive pyval :=
| PyNone
| PyInt (n : Z)
| PyStr (s : str).

(** the pattern "(\d{1,2}/\d{1,2})" *)
Definition mm_dd_re : regex :=
  Group 1 (Seq (times 1 2 is_digit) (Seq (chr "/") (times 1 2 is_digit))).

(** the pattern "\d+" *)
Definition number_re : regex := plus is_digit.

(** the pattern "(\d+)\s*day" *)
Definition n_days_re : regex :=
  Seq (Group 1 (plus is_digit)) (Seq (star is_space) (text "day")).

(** the branch for "present": [date_value] when an [MM/DD] is found *)
Definition present_date (today : date) (value_str : str) : result (option str) :=
  match search mm_dd_re value_str with
  | Some m =>
      match group 1 (m_caps m) with
      | Some g =>
          let mm_dd := split_char "/" g in
          f0 <- item mm_dd 0 ;;
          month <- int_of f0 ;;
          f1 <- item mm_dd 1 ;;
          day <- int_of f1 ;;
          let year := year today in
          Ok (Some (fmt_0d 4 year ++ lit "-" ++ fmt_0d 2 month ++ lit "-"
                    ++ fmt_0d 2 day))
      | None => Raise AttributeError
      end
  | None => Ok None
  end.

(** the branch for "ongoing" / "starting": up to three numbers read as
    month, day, year *)
Definition ongoing_date (today : date) (value_str : str) : result (option str) :=
  let numbers := findall number_re value_str in
  ymd <-
    match numbers with
    | [] => Ok (year today, month today, day today)
    | [n0] =>
        month <- int_of n0 ;;
        Ok (year today, month, day today)
    | [n0; n1] =>
        month <- int_of n0 ;;
        day <- int_of n1 ;;
        Ok (year today, month, day)
    | n0 :: n1 :: n2 :: _ =>
        month <- int_of n0 ;;
        day <- int_of n1 ;;
        year <- int_of n2 ;;
        Ok (if (year <? 100)%Z then (year + 2000)%Z else year, month, day)
    end ;;
  let '(year, month, day) := ymd in
  except_ValueError
    (parsed_date <- datetime year month day ;;
     Ok (strftime_ymd parsed_date)).

(** the branch for "last N days" *)
Definition n_days (value_str : str) : result (option Z) :=
  match search n_days_re value_str with
  | Some m =>
      match group 1 (m_caps m) with
      | Some g => n <- int_of g ;; Ok (Some n)
      | None => Raise TypeError
      end
  | None => Ok None
  end.

(** [discover_timespan(timespan_column)], with the clock made explicit *)
Definition discover_timespan (today : date) (timespan_column : list str)
  : result pyval :=
  match timespan_column with
  | [] => Ok PyNone
  | _ =>
      let lower_str := map lower (drop_duplicates timespan_column) in
      value_str <- item lower_str 0 ;;
      found <-
        (if contains "present" value_str then
           d <- present_date today value_str ;; Ok (d, None)
         else if contains "mtd" value_str || contains "month to date" value_str
         then Ok (Some (lit "toStartOfMonth(today())"), None)
         else if contains "ytd" value_str || contains "year to date" value_str
         then Ok (Some (lit "toStartOfYear(today())"), None)
         else if contains "prior day" value_str
                 || contains "previous day" value_str
         then Ok (None, Some 1%Z)
         else if contains "ongoing" value_str || contains "starting" value_str
         then d <- ongoing_date today value_str ;; Ok (d, None)
         else n <- n_days value_str ;; Ok (None, n)) ;;
      match found with
      | (Some date_value, _) => Ok (PyStr date_value)
      | (None, Some days_back) => Ok (PyInt days_back)
      | (None, None) => Ok PyNone
      end
  end.

End ScheduleParser.

(** ** Values handed between the modules *)

Import ScheduleParser.

(** the text an f-string or [str()] gives a value *)
Definition py_format (v : pyval) : str :=
  match v with
  | PyNone => "None"
  | PyInt n => str_of_int n
  | PyStr s => s
  end.

(** [Series.fillna('')] on one cell *)
Definition fillna_empty (v : option str) : str :=
  match v with
  | Some s => s
  | None => []
  end.

(** [a.fillna(b)] on one cell *)
Definition fillna {A} (a b : option A) : option A :=
  match a with
  | Some _ => a
  | None => b
  end.

(** the double quote, which a literal of this file cannot hold *)
Definition dq : ascii := ascii_of_nat 34.

(** the frame [get_jira_ticket_info] returns, column by column (each column
    a Series of strings, one entry per row of the frame) *)
Record dataframe := DataFrame {
  time_span : list str;
  sql_select_columns : list str;
  period_and_time : list str;
  delivery_method : list str;
  recipient_list : list str;
  lid_hid : list str
}.

(** ** sql_generator.py *)

Module SqlGenerator.

(** the items of the dict literal [MAPPING_DICT], in source order *)
Definition MAPPING_DICT : list (str * str) :=
  [ (lit "date", lit "event_date");
    (lit "partner id", lit "partner_id");
    (lit "ad group name", lit "adgroup_name");
    (lit "ad group", lit "adgroup_name");
    (lit "adgroup name", lit "adgroup_name");
    (lit "adgroup", lit "adgroup_name");
    (lit "ad group", lit "adgroup_name");
    (lit "adgroup lid", lit "adgroup_lid");
    (lit "adgroup hid", lit "adgroup_hid");
    (lit "campaign", lit "campaign_name");
    (lit "campaign name", lit "campaign_name");
    (lit "campaign lid", lit "campaign_lid");
    (lit "campaign hid", lit "campaign_hid");
    (lit "sid", lit "sid");
    (lit "said", lit "said");
    (lit "sid-said", lit "concat(sid," ++ [dq] ++ lit "~" ++ [dq] ++ lit ",said)");
    (lit "advertiser name", lit "advertiser_name");
    (lit "advertiser", lit "advertiser_name");
    (lit "keyword", lit "viewed_text");
    (lit "pub name", lit "affiliate_account_name");
    (lit "publisher name", lit "affiliate_account_name");
    (lit "publisher", lit "affiliate_account_name");
    (lit "publisher lid", lit "affiliate_account_lid");
    (lit "publisher hid", lit "affiliate_account_hid");
    (lit "source name", lit "traffic_source_name");
    (lit "source", lit "traffic_source_name");
    (lit "traffic source lid", lit "traffic_source_lid");
    (lit "traffic source hid", lit "traffic_source_hid");
    (lit "cpc", lit "CASE WHEN isNaN(round(sum(revenue)/sum(paid_clicks),2)) THEN 0 ELSE round(sum(revenue)/sum(paid_clicks),2) END");
    (lit "cpa", lit "CASE WHEN isNaN(round(sum(revenue)/sum(actions_worth), 2)) THEN 0 WHEN isInfinite(round(sum(revenue)/sum(actions_worth), 2)) THEN 0 ELSE round(sum(revenue)/sum(actions_worth), 2) END");
    (lit "ctr", lit "COALESCE(ROUND(SUM(paid_clicks)/SUM(impressions), 6), 0)");
    (lit "cvr", lit "COALESCE(ROUND(SUM(actions_worth) / SUM(paid_clicks), 6), 0)");
    (lit "clicks", lit "COALESCE(sum(paid_clicks),0)");
    (lit "conversions", lit "COALESCE(sum(event_fires),0)");
    (lit "reservations", lit "COALESCE(sum(event_fires),0)");
    (lit "actions", lit "COALESCE(sum(actions_worth),0)");
    (lit "conversion rate", lit "round(sum(actions_worth)/sum(paid_clicks), 4)");
    (lit "conversion value", lit "round(COALESCE(sum(dollars_worth),0),2)");
    (lit "impressions", lit "round(COALESCE(sum(impressions),0),0)");
    (lit "imps", lit "round(COALESCE(sum(impressions),0),0)");
    (lit "spend", lit "round(COALESCE(sum(revenue),0),2)");
    (lit "cost", lit "round(COALESCE(sum(revenue),0),2)");
    (lit "revenue", lit "round(COALESCE(sum(dollars_worth),0),2)");
    (lit "inquiries", lit "round(COALESCE(sum(actions_worth),0),2)");
    (lit "purchases", lit "round(COALESCE(sum(event_fires),0),2)") ].

(** [d.get(key, None)] on a dict given by the items of its literal: of two
    items with one key the later one is the value *)
Definition dict_get (key : str) (items : list (str * str)) : option str :=
  fold_left (fun found kv => if str_eqb (fst kv) key then Some (snd kv) else found)
            items None.

(** [generate_selects(main_text)] *)
Definition generate_selects (main_text : str) : option str :=
  let key := lower (strip main_text) in
  dict_get key MAPPING_DICT.

(** [add_backticks(value)] *)
Definition add_backticks (value : str) : str :=
  if contains " " value then lit "`" ++ value ++ lit "`" else value.

(** the pattern "\n|\, and |\, |," *)
Definition separators_re : regex :=
  alts [chr "010"; text ", and "; text ", "; chr ","].

Definition not_paren (c : ascii) : bool :=
  negb (Ascii.eqb c "(" || Ascii.eqb c ")").

(** the pattern of "name - note" and "name = note": from the start of the
    token, group 1 is any text, as short as can be; then, optionally, either
    blanks, a dash and blanks, or blanks, an equals sign, blanks and group 2,
    the rest of the line; then the end of the token *)
Definition name_annotation_re : regex :=
  Seq Bol
   (Seq (Group 1 (lazy_star dot))
    (Seq (Opt (Alt (Seq (star is_space) (Seq (chr "-") (star is_space)))
                   (Seq (star is_space)
                    (Seq (chr "=") (Seq (star is_space) (Group 2 (star dot)))))))
         Eol)).

(** the pattern "^([^()]+)\s*\(([^()]+)\)$" *)
Definition name_parens_re : regex :=
  Seq Bol
   (Seq (Group 1 (plus not_paren))
    (Seq (star is_space)
     (Seq (chr "(")
      (Seq (Group 2 (plus not_paren)) (Seq (chr ")") Eol))))).

(** the inner [_transform_text] *)
Definition _transform_text (x : str) : str :=
  join " " (map (fun word => if length word <=? 3 then capitalize word
                             else title word)
                (split_ws x)).

Definition aggregate_keywords : list str :=
  [lit "sum"; lit "count"; lit "min"; lit "max"].

(** one cell of [Series.str.contains('|'.join(aggregate_keywords),
    case=False, na=False)] *)
Definition contains_aggregate (cell : option str) : bool :=
  match cell with
  | Some e =>
      match search (alts (map text_nocase aggregate_keywords)) e with
      | Some _ => true
      | None => false
      end
  | None => false
  end.

(** a row of [select_df] *)
Record column_spec := ColumnSpec {
  main_text : str;
  info : option str;
  modified_main_text : str;
  selects_for_sql : option str;
  aliases_for_sql : str;
  json_col_names : str;
  final_sql_select_column : str;
  sample_main_text : str;
  sample_report_selects : str
}.

(** the exploded, lower-cased tokens of the requested column text *)
Definition sql_column (texts : list str) : list str :=
  flat_map (fun t => Re.split separators_re (lower t)) texts.

(** the name of a token: what the two extractions and the two [fillna]
    leave in [main_text] *)
Definition token_main_text (token : str) : str :=
  let '(main_text_1, info_1) := extract2 name_annotation_re token in
  let '(main_text_2, info_2) := extract2 name_parens_re token in
  match fillna main_text_1 main_text_2 with
  | Some m => m
  | None => token
  end.

Definition token_info (token : str) : option str :=
  let '(main_text_1, info_1) := extract2 name_annotation_re token in
  let '(main_text_2, info_2) := extract2 name_parens_re token in
  fillna info_1 info_2.

(** the columns derived from [main_text], for one row *)
Definition build_spec (token : str) : column_spec :=
  let main_text := token_main_text token in
  let modified_main_text := _transform_text main_text in
  let selects_for_sql := generate_selects main_text in
  let aliases_for_sql := replace_char " " (lit "_") main_text ++ lit "_as_column" in
  let sample_main_text := add_backticks modified_main_text in
  ColumnSpec main_text (token_info token) modified_main_text selects_for_sql
    aliases_for_sql
    (aliases_for_sql ++ lit "|" ++ modified_main_text)
    (fillna_empty selects_for_sql ++ lit " as " ++ aliases_for_sql)
    sample_main_text
    (fillna_empty selects_for_sql ++ lit " as " ++ sample_main_text).

(** [select_df] once its columns are filled: the rows with a non-empty
    [main_text], in input order *)
Definition select_df (texts : list str) : list column_spec :=
  map build_spec
      (filter (fun token => negb (str_eqb (token_main_text token) []))
              (sql_column texts)).

(** the rows of [group_by_df]: those the aggregate test does not flag *)
Definition group_by_df (rows : list column_spec) : list column_spec :=
  filter (fun r => negb (contains_aggregate (selects_for_sql r))) rows.

(** [group_by_df['selects_for_sql'].dropna().tolist()] *)
Definition group_by_list (rows : list column_spec) : list str :=
  flat_map (fun r => match selects_for_sql r with
                     | Some e => [e]
                     | None => []
                     end) (group_by_df rows).

Definition melted_column_names (rows : list column_spec) : str :=
  join ", " (map json_col_names rows).

Definition melted_base_sql (rows : list column_spec) : str :=
  lit "SELECT " ++ join ", " (map final_sql_select_column rows)
  ++ lit " " ++ lit "FROM ad_event_view ".

Definition melted_group_by (rows : list column_spec) : str :=
  join ", " (group_by_list rows).

Definition sample_melted_base_sql (rows : list column_spec) : str :=
  lit "SELECT " ++ join ", " (map sample_report_selects rows)
  ++ lit " " ++ lit "FROM ad_event_view ".

(** [series.str.split('~', expand=True)[j].iloc[0]]: column [j] exists when
    some row has more than [j] parts; a row with fewer parts holds [None]
    there *)
Definition split_expand_first (j : nat) (series : list str) : result pyval :=
  let parts := map (split_char "~") series in
  if existsb (fun p => j <? length p) parts then
    row <- item parts 0 ;;
    match nth_error row j with
    | Some s => Ok (PyStr s)
    | None => Ok PyNone
    end
  else Raise KeyError.

(** [sql_statement_generator(dataframe)] *)
Definition sql_statement_generator (df : dataframe) : result (list pyval) :=
  let rows := select_df (sql_select_columns df) in
  lid <- split_expand_first 0 (lid_hid df) ;;
  hid <- split_expand_first 1 (lid_hid df) ;;
  Ok [ PyStr (melted_column_names rows);
       PyStr (melted_base_sql rows);
       lid;
       hid;
       PyStr (melted_group_by rows);
       PyStr (sample_melted_base_sql rows) ].

End SqlGenerator.

(** ** advertiser_report_generator.py *)

Module ReportGenerator.

(** In the literals of this module the character ` stands for the double
    quote of the source text. *)
Definition q (s : string) : str :=
  map (fun c => if Ascii.eqb c "`" then dq else c) (lit s).

(** what a run acts on: the file system and the terminal.  [opens path] is
    the outcome of [open(path, 'w')]: the file the path names (a number; two
    path texts may name one file) or the exception raised when the path
    cannot be opened for writing.  [files] holds what was written, the
    latest write first, and [stdout] the lines printed.  The file and the
    terminal are taken to encode every character they are given (UTF-8),
    so that a write or a print, once the file is open, does not raise. *)
Record world := World {
  opens : str -> result nat;
  files : list (nat * str);
  stdout : list str
}.

(** the frame of a sample report, row by row *)
Definition frame := list (list str).

(** an [AdvertiserReportGenerator]: its attributes, the ClickHouse client
    being the function from a query text to the [advertiser_name] column of
    the frame the store answers with.  The method [sample_report_generator]
    (a query to the store, dates parsed by pandas, a CSV file written) is
    taken as given: from [sql_elements], [time_span], [directory] and the
    world to the frame returned or the exception raised, and the world
    left. *)
Record generator := Generator {
  clickhouse_host : str;
  db_name : str;
  client : str -> list str;
  sample_report_generator :
    list pyval -> pyval -> str -> world -> result frame * world
}.

Definition report_of (v : report_type * Z * Z) : report_type := fst (fst v).
Definition hours_of (v : report_type * Z * Z) : Z := snd (fst v).
Definition minutes_of (v : report_type * Z * Z) : Z := snd v.

(** [get_advertiser_name(self, lid_hid)] *)
Definition get_advertiser_name (self : generator) (today : date)
  (lid_hid : list str) : result str :=
  lid <- SqlGenerator.split_expand_first 0 lid_hid ;;
  hid <- SqlGenerator.split_expand_first 1 lid_hid ;;
  let todays_date := strftime_ymd today in
  let sql_ad_event :=
    q "
            SELECT DISTINCT advertiser_name
            FROM ad_event_view
            WHERE event_date = '"
    ++ todays_date
    ++ q "'
              AND advertiser_lid = "
    ++ py_format lid
    ++ q "
              AND advertiser_hid = "
    ++ py_format hid
    ++ q "
        " in
  let advertiser_name_df := client self sql_ad_event in
  let advertiser_name_df :=
    match advertiser_name_df with
    | [] =>
        let sql_advertiser_dim :=
    q "
                SELECT DISTINCT advertiser_name
                FROM advertiser_dim
                WHERE advertiser_hid = "
    ++ py_format hid
    ++ q "
            " in
        client self sql_advertiser_dim
    | _ => advertiser_name_df
    end in
  match advertiser_name_df with
  | name_str :: _ =>
      Ok (replace_char " " (lit "_") (replace "dotcom" ".com" (title name_str)))
  | [] => Ok (lit "Unknown_Advertiser")
  end.

(** [assemble_int_dag_json]: the job for a timespan given as a day count *)
Definition assemble_int_dag_json (self : generator)
  (delivery recipients advertiser_input : str) (time_span : Z)
  (cron_job : str) (sql_elements : list pyval) : result str :=
  timedelta_value <- timedelta_calculator cron_job ;;
  e0 <- item sql_elements 0 ;;
  e1 <- item sql_elements 1 ;;
  e2 <- item sql_elements 2 ;;
  e3 <- item sql_elements 3 ;;
  e4 <- item sql_elements 4 ;;
  Ok (q "
        {
          `export_setting`: {
            `export_type`: `"
      ++ delivery
      ++ q "`,
            `mail_to`: `"
      ++ recipients
      ++ q ", chris.pachulski@ad.net`,
            `attachment_name`: `adnet_"
      ++ advertiser_input
      ++ q "_${start_date}_${end_date}.csv`,
            `export_dest_dir`: ``,
            `mail_subject`: `Ad.net - "
      ++ replace_char "_" (lit " ") advertiser_input
      ++ q " "
      ++ report_type_str (report_of timedelta_value)
      ++ q " Report`,
            `export_password`: ``,
            `export_url`: ``,
            `mail_from`: `NO-REPLY@ad.net`,
            `mail_body`: `Stats attached.`,
            `export_username`: ``
          },
          `report_definition`: {
            `reportType`: `SCRIPTED`,
            `quotechar`: `\``,
            `report_for_past_n_days`: "
      ++ str_of_int time_span
      ++ q ",
            `escapechar`: `\``,
            `columns`: `"
      ++ py_format e0
      ++ q "`,
            `calculateTotals`: false,
            `lowerCtr`: ``,
            `upperCtr`: ``,
            `separator`: `,`,
            `lineEnd`: `\n`,
            `scriptedTableReport`: {
                `database`: `CLICKHOUSE`,
                `scriptedSql`: `"
      ++ py_format e1
      ++ q " where event_date BETWEEN :startDate AND :endDate AND (advertiser_lid = "
      ++ py_format e2
      ++ q " AND advertiser_hid = "
      ++ py_format e3
      ++ q ") GROUP BY "
      ++ py_format e4
      ++ q " ORDER BY event_date desc`
            }
          },
          `external_dependency`: {
            `timedelta`: {
                `hours`: "
      ++ str_of_int (hours_of timedelta_value)
      ++ q ",
                `minutes`: "
      ++ str_of_int (minutes_of timedelta_value)
      ++ q "
            },
            `task_id`: `process_completed_notification`,
            `dag_id`: `traffic-server-etl-daily`
          },
          `schedule_interval`: `"
      ++ cron_job
      ++ q "`
        }
        ").

(** [assemble_str_dag_json]: the job for a timespan given as a start date *)
Definition assemble_str_dag_json (self : generator)
  (delivery recipients advertiser_input : str) (time_span : str)
  (cron_job : str) (sql_elements : list pyval) : result str :=
  timedelta_value <- timedelta_calculator cron_job ;;
  e0 <- item sql_elements 0 ;;
  e1 <- item sql_elements 1 ;;
  e2 <- item sql_elements 2 ;;
  e3 <- item sql_elements 3 ;;
  e4 <- item sql_elements 4 ;;
  Ok (q "
        {
          `export_setting`: {
            `export_type`: `"
      ++ delivery
      ++ q "`,
            `mail_to`: `"
      ++ recipients
      ++ q ", chris.pachulski@ad.net`,
            `attachment_name`: `adnet_"
      ++ advertiser_input
      ++ q "_"
      ++ time_span
      ++ q "_${end_date}.csv`,
            `export_dest_dir`: ``,
            `mail_subject`: `Ad.net - "
      ++ replace_char "_" (lit " ") advertiser_input
      ++ q " "
      ++ report_type_str (report_of timedelta_value)
      ++ q " Report`,
            `export_password`: ``,
            `export_url`: ``,
            `mail_from`: `NO-REPLY@ad.net`,
            `mail_body`: `Stats attached.`,
            `export_username`: ``
          },
          `report_definition`: {
            `reportType`: `SCRIPTED`,
            `quotechar`: `\``,
            `report_for_past_n_days`: 1,
            `escapechar`: `\``,
            `columns`: `"
      ++ py_format e0
      ++ q "`,
            `calculateTotals`: false,
            `lowerCtr`: ``,
            `upperCtr`: ``,
            `separator`: `,`,
            `lineEnd`: `\n`,
            `scriptedTableReport`: {
                `database`: `CLICKHOUSE`,
                `scriptedSql`: `"
      ++ py_format e1
      ++ q " where event_date BETWEEN '"
      ++ time_span
      ++ q "' AND :endDate AND (advertiser_lid = "
      ++ py_format e2
      ++ q " AND advertiser_hid = "
      ++ py_format e3
      ++ q ") GROUP BY "
      ++ py_format e4
      ++ q " ORDER BY event_date desc`
            }
          },
          `external_dependency`: {
            `timedelta`: {
                `hours`: "
      ++ str_of_int (hours_of timedelta_value)
      ++ q ",
                `minutes`: "
      ++ str_of_int (minutes_of timedelta_value)
      ++ q "
            },
            `task_id`: `process_completed_notification`,
            `dag_id`: `traffic-server-etl-daily`
          },
          `schedule_interval`: `"
      ++ cron_job
      ++ q "`
        }
        ").

(** [time_span == text] for a value of any type *)
Definition py_eq_str (v : pyval) (text : str) : bool :=
  match v with
  | PyStr s => str_eqb s text
  | _ => false
  end.

(** [assemble_default_dag_json]: the job for the MTD and YTD markers, and
    the fallback on the standard [:startDate] / [:endDate] window *)
Definition assemble_default_dag_json (self : generator)
  (delivery recipients advertiser_input : str) (time_span : pyval)
  (cron_job : str) (sql_elements : list pyval) : result str :=
  timedelta_value <- timedelta_calculator cron_job ;;
  let '(display_span, subject_time, date_filter) :=
    if py_eq_str time_span "toStartOfMonth(today())" then
      (PyStr (lit "MTD"), lit "MTD" ++ lit " Report",
       lit "toStartOfMonth(today()) AND :endDate")
    else if py_eq_str time_span "toStartOfYear(today())" then
      (PyStr (lit "YTD"), lit "YTD" ++ lit " Report",
       lit "toStartOfYear(today()) AND :endDate")
    else
      (time_span, report_type_str (report_of timedelta_value) ++ lit " Report",
       lit ":startDate AND :endDate") in
  e0 <- item sql_elements 0 ;;
  e1 <- item sql_elements 1 ;;
  e2 <- item sql_elements 2 ;;
  e3 <- item sql_elements 3 ;;
  e4 <- item sql_elements 4 ;;
  Ok (q "
        {
          `export_setting`: {
            `export_type`: `"
      ++ delivery
      ++ q "`,
            `mail_to`: `"
      ++ recipients
      ++ q ", chris.pachulski@ad.net`,
            `attachment_name`: `adnet_"
      ++ advertiser_input
      ++ q "_"
      ++ py_format display_span
      ++ q "_${end_date}.csv`,
            `export_dest_dir`: ``,
            `mail_subject`: `Ad.net - "
      ++ replace_char "_" (lit " ") advertiser_input
      ++ q " "
      ++ subject_time
      ++ q "`,
            `export_password`: ``,
            `export_url`: ``,
            `mail_from`: `NO-REPLY@ad.net`,
            `mail_body`: `Stats attached.`,
            `export_username`: ``
          },
          `report_definition`: {
            `reportType`: `SCRIPTED`,
            `quotechar`: `\``,
            `report_for_past_n_days`: 1,
            `escapechar`: `\``,
            `columns`: `"
      ++ py_format e0
      ++ q "`,
            `calculateTotals`: false,
            `lowerCtr`: ``,
            `upperCtr`: ``,
            `separator`: `,`,
            `lineEnd`: `\n`,
            `scriptedTableReport`: {
                `database`: `CLICKHOUSE`,
                `scriptedSql`: `"
      ++ py_format e1
      ++ q " where event_date BETWEEN "
      ++ date_filter
      ++ q " AND (advertiser_lid = "
      ++ py_format e2
      ++ q " AND advertiser_hid = "
      ++ py_format e3
      ++ q ") GROUP BY "
      ++ py_format e4
      ++ q " ORDER BY event_date desc`
            }
          },
          `external_dependency`: {
            `timedelta`: {
                `hours`: "
      ++ str_of_int (hours_of timedelta_value)
      ++ q ",
                `minutes`: "
      ++ str_of_int (minutes_of timedelta_value)
      ++ q "
            },
            `task_id`: `process_completed_notification`,
            `dag_id`: `traffic-server-etl-daily`
          },
          `schedule_interval`: `"
      ++ cron_job
      ++ q "`
        }
        ").

(** *** Writing the job *)

Definition hex_digit (n : nat) : ascii :=
  if n <? 10 then ascii_of_nat (48 + n) else ascii_of_nat (87 + n).

(** one character inside a JSON string, as [json.dump] writes it with
    [ensure_ascii=False] *)
Definition json_escape_char (c : ascii) : str :=
  let n := code c in
  if n =? 34 then [ascii_of_nat 92; dq]
  else if n =? 92 then [ascii_of_nat 92; ascii_of_nat 92]
  else if n =? 10 then lit "\n"
  else if n =? 13 then lit "\r"
  else if n =? 9 then lit "\t"
  else if n =? 8 then lit "\b"
  else if n =? 12 then lit "\f"
  else if n <? 32 then lit "\u00" ++ [hex_digit (n / 16); hex_digit (n mod 16)]
  else [c].

(** [json.dumps(text, ensure_ascii=False, indent=4)] for a string *)
Definition json_dumps (text : str) : str :=
  [dq] ++ flat_map json_escape_char text ++ [dq].

(** [airflow_dag.replace('\n', '').replace('    ', '')] *)
Definition collapse (airflow_dag : str) : str :=
  replace (lit "    ") [] (replace_char "010" [] airflow_dag).

(** [export_json(self, airflow_dag, directory)]: the file [directory] names
    is opened and written (a later write to a file hides the earlier one),
    then the text is printed.  When the file cannot be opened the exception
    leaves the call before anything is written or printed. *)
Definition export_json (self : generator) (airflow_dag directory : str)
  (w : world) : result world :=
  let json_output := collapse airflow_dag in
  json_file <- opens w directory ;;
  Ok (World (opens w) ((json_file, json_dumps json_output) :: files w)
            (stdout w ++ [json_output])).

(** what a file holds in a world *)
Fixpoint read_file (file : nat) (fs : list (nat * str)) : option str :=
  match fs with
  | [] => None
  | (f, content) :: fs' =>
      if f =? file then Some content else read_file file fs'
  end.

(** the dispatch of step 6 on the type of [time_span] *)
Definition assemble (self : generator)
  (delivery recipients advertiser_input : str) (time_span : pyval)
  (cron_job : str) (sql_elements : list pyval) : result str :=
  match time_span with
  | PyInt n =>
      assemble_int_dag_json self delivery recipients advertiser_input n
        cron_job sql_elements
  | PyStr s =>
      if contains "-" s then
        assemble_str_dag_json self delivery recipients advertiser_input s
          cron_job sql_elements
      else
        assemble_default_dag_json self delivery recipients advertiser_input
          time_span cron_job sql_elements
  | PyNone =>
      assemble_default_dag_json self delivery recipients advertiser_input
        time_span cron_job sql_elements
  end.

(** [generate_json_and_sample], from the frame of the ticket on (step 1,
    the query to the tracker, is the frame [all_data_df] it returned).  The
    outcome is the pair the method returns or the exception it raises,
    together with the world the run leaves: as it was when a step up to the
    export raises, with the job file written when the sample report of
    step 8 raises after it. *)
Definition generate_json_and_sample (self : generator) (today : date)
  (all_data_df : dataframe) (json_path csv_path : str) (w : world)
  : result (str * frame) * world :=
  let steps :=
    delivery_method <- item (map lower (delivery_method all_data_df)) 0 ;;
    recipients <-
      item (map (fun r => replace_char ";" (lit ",") (lower r))
                (recipient_list all_data_df)) 0 ;;
    advertiser_input <- get_advertiser_name self today (lid_hid all_data_df) ;;
    time_span <- discover_timespan today (time_span all_data_df) ;;
    cron_job <- discover_cron (period_and_time all_data_df) ;;
    sql_elements <- SqlGenerator.sql_statement_generator all_data_df ;;
    airflow_dag <-
      assemble self delivery_method recipients advertiser_input time_span
        cron_job sql_elements ;;
    w1 <- export_json self airflow_dag json_path w ;;
    Ok (time_span, sql_elements, airflow_dag, w1) in
  match steps with
  | Ok (time_span, sql_elements, airflow_dag, w1) =>
      match sample_report_generator self sql_elements time_span csv_path w1 with
      | (Ok sample_report, w2) =>
          (Ok (collapse airflow_dag, sample_report), w2)
      | (Raise e, w2) => (Raise e, w2)
      end
  | Raise e => (Raise e, w)
  end.

End ReportGenerator.

(** ** jira_client.py *)

Module JiraClient.

(** one cell of [Series.str.replace(pat, repl, regex=True)], that is
    [re.sub(pat, repl, cell)], for a pattern that does not match the empty
    text: the pieces between the matches, joined by the replacement *)
Definition str_replace_regex (pat : regex) (repl cell : str) : str :=
  join repl (Re.split pat cell).

Definition is_newline (c : ascii) : bool := Ascii.eqb "010" c.

(** the pattern "[\n]+" *)
Definition newlines_re : regex := plus is_newline.

(** the pattern "\s*,\s*" *)
Definition comma_blanks_re : regex :=
  Seq (star is_space) (Seq (chr ",") (star is_space)).

(** the pattern ",+" *)
Definition commas_re : regex := plus (Ascii.eqb ",").

(** the three replacements that [get_jira_ticket_info] applies to the
    recipient_list column, on one cell (the rest of the function, the query
    to the tracker and the flattening of its answer, lies outside the
    model) *)
Definition clean_recipient_list (cell : str) : str :=
  let cell := str_replace_regex newlines_re (lit ",") cell in
  let cell := str_replace_regex comma_blanks_re (lit ",") cell in
  str_replace_regex commas_re (lit ",") cell.

End JiraClient.

Import SqlGenerator ReportGenerator.

(** ** Notions used in the statements *)

(** a non-empty text without blanks *)
Definition word (w : str) : Prop :=
  w <> [] /\ forallb (fun c => negb (is_space c)) w = true.

(** the default of [sys.get_int_max_str_digits()]: [int] raises
    [ValueError] on a literal of more digits, which [py_int] leaves out *)
Definition int_max_str_digits : nat := 4300.

(** a text of ASCII characters.  On such texts [isdigit], [capitalize],
    [title] and the blanks of the model are those of the interpreter; off
    them [str.isdigit] accepts digits that [int] refuses and the casing
    methods change characters the model leaves alone. *)
Definition ascii_text (s : str) : bool := forallb (fun c => code c <? 128) s.

(** a generator whose store knows one advertiser and whose sample report is
    empty, a world in which every path names file 0, and three tickets: one
    with a timespan text no rule reads, one asking for a field the mapping
    table lacks, one asking for the publisher name *)
Definition sample_generator : generator :=
  Generator (lit "localhost") (lit "addotnet") (fun _ => [lit "acme dot com"])
            (fun _ _ _ w => (Ok [], w)).

Definition sample_world : world := World (fun _ => Ok 0) [] [].

Definition unparsed_ticket : dataframe :=
  DataFrame [lit "whenever"] [lit "Date, Clicks"] [lit "Daily at 9 am ET"]
            [lit "Email"] [lit "a@x.com;b@y.com"] [lit "12~34"].

Definition bounce_ticket : dataframe :=
  DataFrame [] [lit "Date, bounce rate"] [] [] [] [lit "12~34"].

Definition publisher_text : list str := [lit "Date, Publisher Name"].


(** the word-by-word casing of [_transform_text] *)
Definition label_word (word : str) : str :=
  if length word <=? 3 then capitalize word else title word.

(** a pattern without capture groups *)
Fixpoint groupless (r : regex) : bool :=
  match r with
  | Group _ _ => false
  | Seq r1 r2 | Alt r1 r2 => groupless r1 && groupless r2
  | Opt r1 => groupless r1
  | Eps | Rep _ _ _ _ | Bol | Eol => true
  end.

(** * Properties *)

(** ** The model on the examples of the documentation *)

Example timedelta_calculator_examples :
  timedelta_calculator (lit "0 3 * * *") = Ok (Daily, 0%Z, 0%Z)
  /\ timedelta_calculator (lit "30 8 * * 1") = Ok (Weekly, (-19)%Z, 30%Z)
  /\ timedelta_calculator (lit "0 3 1 * *") = Ok (Monthly, 0%Z, 0%Z)
  /\ timedelta_calculator (lit "0 3 * * mon") = Ok (Weekly, 0%Z, 0%Z)
  /\ timedelta_calculator [] = Raise ValueError
  /\ timedelta_calculator (lit "0 x * * *") = Raise ValueError.
Proof. repeat split. Qed.

Example discover_cron_examples :
  discover_cron [lit "2 pm"] = Ok (lit "0 14 * * 1")
  /\ discover_cron [lit "Daily at 9 am ET"] = Ok (lit "0 6 * * *")
  /\ discover_cron [lit "Every Tuesday at 7 am"] = Ok (lit "0 7 * * 2")
  /\ discover_cron [lit "weekly"] = Ok (lit "0 4 * * 1")
  /\ discover_cron [lit "1 am EST"] = Ok (lit "0 22 * * 1")
  /\ discover_cron [] = Raise IndexError.
Proof. repeat split. Qed.

Example discover_timespan_examples :
  let today := Date 2026 11 3 in
  discover_timespan today [lit "Last 7 Days"] = Ok (PyInt 7)
  /\ discover_timespan today [lit "Last 7 days"] = Ok (PyInt 7)
  /\ discover_timespan today [lit "MTD"] = Ok (PyStr (lit "toStartOfMonth(today())"))
  /\ discover_timespan today [lit "month to date"]
     = Ok (PyStr (lit "toStartOfMonth(today())"))
  /\ discover_timespan today [lit "YTD"] = Ok (PyStr (lit "toStartOfYear(today())"))
  /\ discover_timespan today [lit "year to date"]
     = Ok (PyStr (lit "toStartOfYear(today())"))
  /\ discover_timespan today [lit "Present 03/10"] = Ok (PyStr (lit "2026-03-10"))
  /\ discover_timespan today [lit "Prior day"] = Ok (PyInt 1)
  /\ discover_timespan today [lit "Ongoing"] = Ok (PyStr (lit "2026-11-03"))
  /\ discover_timespan today [lit "Starting 1/15/25"] = Ok (PyStr (lit "2025-01-15"))
  /\ discover_timespan today [lit "Starting 2/30/2024"] = Ok PyNone
  /\ discover_timespan today [lit "whenever"] = Ok PyNone
  /\ discover_timespan today [] = Ok PyNone.
Proof. repeat split. Qed.

Example column_spec_examples :
  map (fun r => (main_text r, modified_main_text r, aliases_for_sql r))
      (select_df [lit "Clicks, CPC = cost per click, Publisher Name"])
  = [ (lit "clicks", lit "Clicks", lit "clicks_as_column");
      (lit "cpc", lit "Cpc", lit "cpc_as_column");
      (lit "publisher name", lit "Publisher Name",
       lit "publisher_name_as_column") ]
  /\ map sample_main_text (select_df [lit "Partner ID, and Publisher Name"])
     = [lit "`Partner Id`"; lit "`Publisher Name`"].
Proof. split; reflexivity. Qed.

(** ** Text and integers *)

Arguments is_space : simpl never.
Arguments is_digit : simpl never.
Arguments is_alpha : simpl never.
Arguments lower_char : simpl never.
Arguments upper_char : simpl never.
Arguments digit_val : simpl never.
Arguments digit_char : simpl never.
Arguments str_of_int : simpl never.
Arguments fmt_0d : simpl never.
Arguments lit : simpl never.

Section Text.

Lemma startswith_app (p s : str) : startswith p (p ++ s) = true.
Proof.
  induction p as [|c p IH]; simpl; [reflexivity|].
  now rewrite Ascii.eqb_refl.
Qed.

Lemma contains_prefix (p s : str) : contains p (p ++ s) = true.
Proof.
  assert (U : forall t, contains p t
                        = startswith p t
                          || match t with
                             | [] => false
                             | _ :: t' => contains p t'
                             end)
    by (intros t; destruct t; reflexivity).
  now rewrite U, startswith_app.
Qed.

Lemma contains_skip (p x s : str) :
  contains p s = true -> contains p (x ++ s) = true.
Proof.
  intros H. induction x as [|c x IH]; simpl; [exact H|].
  rewrite IH. apply orb_true_r.
Qed.



Lemma digit_not_space (c : ascii) : is_digit c = true -> is_space c = false.
Proof.
  unfold is_digit, is_space. intros H.
  apply andb_true_iff in H as [H1 H2].
  apply Nat.leb_le in H1. apply Nat.leb_le in H2.
  apply orb_false_iff; split; apply andb_false_iff.
  - right. apply Nat.leb_gt. lia.
  - right. apply Nat.leb_gt. lia.
Qed.

Lemma digit_char_spec (d : Z) :
  (0 <= d < 10)%Z -> is_digit (digit_char d) = true /\ digit_val (digit_char d) = d.
Proof.
  intros H.
  assert (E : (d = 0 \/ d = 1 \/ d = 2 \/ d = 3 \/ d = 4 \/ d = 5 \/ d = 6
               \/ d = 7 \/ d = 8 \/ d = 9)%Z) by lia.
  repeat (destruct E as [-> | E]; [split; reflexivity|]).
  subst d; split; reflexivity.
Qed.

Lemma digits_value_snoc (s : str) (c : ascii) :
  digits_value (s ++ [c]) = (10 * digits_value s + digit_val c)%Z.
Proof. unfold digits_value. now rewrite fold_left_app. Qed.

Lemma digits_value_from_nonneg (s : str) (a : Z) :
  (0 <= a)%Z ->
  (0 <= fold_left (fun acc c => (10 * acc + digit_val c)%Z) s a)%Z.
Proof.
  revert a. induction s as [|c s IH]; cbn [fold_left]; intros a Ha; [exact Ha|].
  apply IH. pose proof (Nat2Z.is_nonneg (code c - 48)). unfold digit_val. lia.
Qed.

Lemma digits_value_nonneg (s : str) : (0 <= digits_value s)%Z.
Proof. apply digits_value_from_nonneg. lia. Qed.

(** printing a non-negative integer gives digits that read back as it *)
Lemma nat_digits_spec (fuel : nat) :
  forall n, (0 <= n < 2 ^ Z.of_nat (S fuel))%Z ->
    forallb is_digit (nat_digits fuel n) = true
    /\ nat_digits fuel n <> []
    /\ digits_value (nat_digits fuel n) = n.
Proof.
  induction fuel as [|fuel IH]; intros n Hn.
  - change (2 ^ Z.of_nat 1)%Z with 2%Z in Hn. cbn [nat_digits forallb].
    assert (E : (n mod 10 = n)%Z) by (apply Z.mod_small; lia).
    rewrite E. destruct (digit_char_spec n) as [D V]; [lia|].
    rewrite D. repeat split; [discriminate|].
    unfold digits_value; cbn [fold_left]. rewrite V. lia.
  - cbn [nat_digits]. destruct (n <? 10)%Z eqn:E.
    + apply Z.ltb_lt in E. destruct (digit_char_spec n) as [D V]; [lia|].
      cbn [forallb]. rewrite D. repeat split; [discriminate|].
      unfold digits_value; cbn [fold_left]. rewrite V. lia.
    + apply Z.ltb_ge in E.
      assert (Hq : (0 <= n / 10 < 2 ^ Z.of_nat (S fuel))%Z).
      { split; [apply Z.div_pos; lia|].
        apply Z.div_lt_upper_bound; [lia|].
        rewrite (Nat2Z.inj_succ (S fuel)), Z.pow_succ_r in Hn by lia. lia. }
      destruct (IH _ Hq) as (A & B & C).
      destruct (digit_char_spec (n mod 10)) as [D V];
        [apply Z.mod_pos_bound; lia|].
      rewrite forallb_app, A. cbn [forallb]. rewrite D.
      repeat split.
      * intros H. apply app_eq_nil in H as [_ H]. discriminate.
      * rewrite digits_value_snoc, C, V.
        symmetry. apply Z.div_mod. lia.
Qed.

Lemma str_of_int_spec (n : Z) :
  (0 <= n)%Z ->
  forallb is_digit (str_of_int n) = true
  /\ str_of_int n <> []
  /\ digits_value (str_of_int n) = n.
Proof.
  intros Hn. unfold str_of_int.
  destruct (n <? 0)%Z eqn:E; [apply Z.ltb_lt in E; lia|].
  apply nat_digits_spec. split; [exact Hn|].
  destruct (Z.eq_dec n 0) as [->|Hz]; [reflexivity|].
  rewrite Nat2Z.inj_succ, Z2Nat.id by apply Z.log2_nonneg.
  apply Z.log2_spec. lia.
Qed.

Lemma isdigit_iff (s : str) :
  isdigit s = true <-> s <> [] /\ forallb is_digit s = true.
Proof.
  unfold isdigit. destruct s; [split; [discriminate|intros [H _]; now elim H]|].
  split; [intros H; split; [discriminate|exact H] | intros [_ H]; exact H].
Qed.

Lemma lstrip_id (s : str) :
  forallb (fun c => negb (is_space c)) s = true -> lstrip s = s.
Proof.
  destruct s as [|c s]; simpl; [reflexivity|].
  intros H. apply andb_true_iff in H as [H _].
  now destruct (is_space c).
Qed.

Lemma strip_id (s : str) :
  forallb (fun c => negb (is_space c)) s = true -> strip s = s.
Proof.
  intros H. unfold strip, rstrip. rewrite (lstrip_id s H).
  rewrite lstrip_id; [apply rev_involutive|].
  rewrite forallb_forall in *. intros x Hx. apply H. now apply in_rev.
Qed.

Lemma digits_no_space (s : str) :
  forallb is_digit s = true -> forallb (fun c => negb (is_space c)) s = true.
Proof.
  rewrite !forallb_forall. intros H x Hx.
  now rewrite (digit_not_space x (H x Hx)).
Qed.

Lemma drop_group_marks_digits (s : str) (b : bool) :
  s <> [] -> forallb is_digit s = true -> drop_group_marks b s = Some s.
Proof.
  revert b. induction s as [|c s IH]; intros b Hne H; [now elim Hne|].
  simpl in *. apply andb_true_iff in H as [Hc Hs]. rewrite Hc.
  destruct s as [|d s]; [reflexivity|].
  rewrite IH; [reflexivity|discriminate|exact Hs].
Qed.

(** [int] of a run of digits is its decimal value *)
Lemma py_int_digits (s : str) :
  isdigit s = true -> py_int s = Some (digits_value s).
Proof.
  intros H. apply isdigit_iff in H as [Hne Hd].
  unfold py_int. rewrite (strip_id s (digits_no_space s Hd)).
  destruct s as [|c s]; [now elim Hne|].
  assert (Hc : is_digit c = true) by (simpl in Hd; now apply andb_true_iff in Hd).
  destruct (Ascii.eqb c "-") eqn:E1; [apply Ascii.eqb_eq in E1; subst c; discriminate|].
  destruct (Ascii.eqb c "+") eqn:E2; [apply Ascii.eqb_eq in E2; subst c; discriminate|].
  now rewrite drop_group_marks_digits.
Qed.

Lemma int_of_digits (s : str) :
  isdigit s = true -> int_of s = Ok (digits_value s).
Proof. intros H. unfold int_of. now rewrite py_int_digits. Qed.

Lemma isdigit_str_of_int (n : Z) : (0 <= n)%Z -> isdigit (str_of_int n) = true.
Proof.
  intros H. destruct (str_of_int_spec n H) as (A & B & _).
  apply isdigit_iff. auto.
Qed.

Lemma int_of_str_of_int (n : Z) : (0 <= n)%Z -> int_of (str_of_int n) = Ok n.
Proof.
  intros H. rewrite int_of_digits by now apply isdigit_str_of_int.
  now destruct (str_of_int_spec n H) as (_ & _ & ->).
Qed.

End Text.

(** ** Words and blanks *)

Section Words.

Lemma word_of_digits (s : str) : isdigit s = true -> word s.
Proof.
  intros H. apply isdigit_iff in H as [Hne Hd].
  split; [exact Hne | now apply digits_no_space].
Qed.

Lemma word_star : word (lit "*").
Proof. split; [discriminate | reflexivity]. Qed.

Lemma split_ws_blank (b : ascii) (s : str) :
  is_space b = true -> split_ws (b :: s) = split_ws s.
Proof. intros H. cbn [split_ws]. now rewrite H. Qed.

Lemma split_ws_word_blank (w : str) (b : ascii) (s : str) :
  word w -> is_space b = true ->
  split_ws (w ++ b :: s) = w :: split_ws s.
Proof.
  intros [Hne Hw] Hb. induction w as [|c w IH]; [now elim Hne|].
  cbn [forallb] in Hw. apply andb_true_iff in Hw as [Hc Hw].
  apply negb_true_iff in Hc.
  destruct w as [|d w].
  - simpl. now rewrite Hc, Hb.
  - assert (Hd : is_space d = false).
    { cbn [forallb] in Hw. apply andb_true_iff in Hw as [Hd _].
      now apply negb_true_iff in Hd. }
    specialize (IH ltac:(discriminate) Hw).
    change ((c :: d :: w) ++ b :: s) with (c :: ((d :: w) ++ b :: s)).
    remember ((d :: w) ++ b :: s) as t eqn:Et.
    simpl. rewrite Hc. rewrite IH.
    rewrite Et. simpl. now rewrite Hd.
Qed.

Lemma split_ws_word (w : str) : word w -> split_ws w = [w].
Proof.
  intros [Hne Hw]. induction w as [|c w IH]; [now elim Hne|].
  cbn [forallb] in Hw. apply andb_true_iff in Hw as [Hc Hw].
  apply negb_true_iff in Hc.
  destruct w as [|d w].
  - simpl. now rewrite Hc.
  - assert (Hd : is_space d = false).
    { cbn [forallb] in Hw. apply andb_true_iff in Hw as [Hd _].
      now apply negb_true_iff in Hd. }
    specialize (IH ltac:(discriminate) Hw).
    remember (d :: w) as t eqn:Et.
    simpl. rewrite Hc, IH. rewrite Et. now rewrite Hd.
Qed.

Lemma remove_blanks_word_app (w s : str) :
  forallb (fun c => negb (is_space c)) w = true ->
  remove_blanks (w ++ s) = w ++ remove_blanks s.
Proof.
  intros Hw. unfold remove_blanks. rewrite filter_app. f_equal.
  induction w as [|c w IH]; [reflexivity|].
  cbn [forallb] in Hw. apply andb_true_iff in Hw as [Hc Hw].
  cbn [filter]. rewrite Hc. f_equal. now apply IH.
Qed.

End Words.

Create HintDb pytext.
#[local] Hint Resolve word_of_digits word_star isdigit_str_of_int
  int_of_str_of_int : pytext.

Section Fields.

Variable sep : ascii.

(** a text in which the separator does not occur *)
Let sep_free (w : str) : Prop :=
  forallb (fun c => negb (Ascii.eqb c sep)) w = true.

Lemma split_char_word_sep (w s : str) :
  sep_free w -> split_char sep (w ++ sep :: s) = w :: split_char sep s.
Proof.
  unfold sep_free. intros Hw. induction w as [|c w IH].
  - cbn [app split_char]. now rewrite Ascii.eqb_refl.
  - cbn [forallb] in Hw. apply andb_true_iff in Hw as [Hc Hw].
    apply negb_true_iff in Hc.
    cbn [app split_char]. fold (w ++ sep :: s). rewrite Hc, (IH Hw).
    reflexivity.
Qed.

Lemma split_char_word (w : str) : sep_free w -> split_char sep w = [w].
Proof.
  unfold sep_free. intros Hw. induction w as [|c w IH]; [reflexivity|].
  cbn [forallb] in Hw. apply andb_true_iff in Hw as [Hc Hw].
  apply negb_true_iff in Hc.
  cbn [split_char]. now rewrite Hc, (IH Hw).
Qed.

Lemma digits_no_char (s : str) :
  is_digit sep = false -> forallb is_digit s = true -> sep_free s.
Proof.
  unfold sep_free. intros Hsep. rewrite !forallb_forall. intros H x Hx.
  apply negb_true_iff. destruct (Ascii.eqb x sep) eqn:E; [|reflexivity].
  apply Ascii.eqb_eq in E. subst x. now rewrite (H sep Hx) in Hsep.
Qed.

End Fields.

(** ** The lag calculator *)

(** [H : (x <- m ;; k) = Ok r]: a case for each outcome of [m] *)
Ltac bind_inv H :=
  match type of H with
  | bind ?m _ = Ok _ =>
      let E := fresh "E" in
      destruct m eqn:E; cbn [bind] in H; [|discriminate H]
  end.

Section Lag.

Lemma endswith_app (s p : str) : endswith (s ++ p) p = true.
Proof. unfold endswith. rewrite rev_app_distr. apply startswith_app. Qed.

Lemma item_last_snoc {A} (xs : list A) (x : A) : item_last (xs ++ [x]) = Ok x.
Proof. unfold item_last. now rewrite rev_app_distr. Qed.

Lemma digits_last (s : str) :
  isdigit s = true -> exists r c, s = r ++ [c] /\ is_digit c = true.
Proof.
  intros H. apply isdigit_iff in H as [Hne Hd].
  destruct (exists_last Hne) as (r & c & ->).
  exists r, c. split; [reflexivity|].
  rewrite forallb_app in Hd. apply andb_true_iff in Hd as [_ Hd].
  cbn [forallb] in Hd. now apply andb_true_iff in Hd.
Qed.

(** the fields of a cron string, as [str.split()] sees them *)
Lemma cron_words (dm dh dow : str) :
  word dm -> word dh -> word dow ->
  split_ws (dm ++ lit " " ++ dh ++ lit " * * " ++ dow)
  = [dm; dh; lit "*"; lit "*"; dow].
Proof.
  intros Wm Wh Wd.
  change (lit " " ++ dh ++ lit " * * " ++ dow)
    with (" "%char :: dh ++ " "%char :: lit "*" ++ " "%char :: lit "*"
          ++ " "%char :: dow).
  rewrite !split_ws_word_blank by (auto with pytext; reflexivity).
  now rewrite split_ws_word.
Qed.

Lemma minute_of_digits (s : str) :
  isdigit s = true -> minute_of s = Ok (digits_value s).
Proof. intros H. unfold minute_of. rewrite H. now apply int_of_digits. Qed.

(** the lag of a daily schedule *)
Lemma timedelta_daily (dm dh : str) (h : Z) :
  isdigit dm = true -> word dh -> int_of dh = Ok h ->
  timedelta_calculator (dm ++ lit " " ++ dh ++ lit " * * *")
  = Ok (Daily, (h - 3)%Z, digits_value dm).
Proof.
  intros Hm Hh Hi.
  pose proof (word_of_digits dm Hm) as Wm.
  remember (dm ++ lit " " ++ dh ++ lit " * * *") as cron eqn:Ecron.
  assert (Hs : split_ws cron = [dm; dh; lit "*"; lit "*"; lit "*"])
    by (rewrite Ecron; apply (cron_words dm dh (lit "*")); auto with pytext).
  assert (Ht : remove_blanks cron = (dm ++ dh) ++ lit "***").
  { rewrite Ecron. rewrite remove_blanks_word_app by apply Wm.
    change (lit " " ++ dh ++ lit " * * *") with (" "%char :: dh ++ lit " * * *").
    unfold remove_blanks at 1. cbn [filter].
    change (negb (is_space " ")) with false. cbv iota.
    fold (remove_blanks (dh ++ lit " * * *")).
    rewrite remove_blanks_word_app by apply Hh.
    now rewrite app_assoc. }
  unfold timedelta_calculator.
  destruct cron as [|c0 cron0]; [discriminate Hs|]. cbv zeta.
  rewrite Ht, endswith_app, Hs.
  cbn [length Nat.leb item nth_error bind]. rewrite Hi. cbn [bind].
  rewrite minute_of_digits by exact Hm. reflexivity.
Qed.

(** the lag of a weekly schedule on a numbered weekday *)
Lemma timedelta_weekly (dm dh dw : str) (h : Z) :
  isdigit dm = true -> word dh -> int_of dh = Ok h -> isdigit dw = true ->
  timedelta_calculator (dm ++ lit " " ++ dh ++ lit " * * " ++ dw)
  = Ok (Weekly, ((digits_value dw * 24 - (h - 3)) * -1)%Z, digits_value dm).
Proof.
  intros Hm Hh Hi Hw.
  pose proof (word_of_digits dm Hm) as Wm.
  pose proof (word_of_digits dw Hw) as Ww.
  destruct (digits_last dw Hw) as (r & c & Er & Hc).
  remember (dm ++ lit " " ++ dh ++ lit " * * " ++ dw) as cron eqn:Ecron.
  assert (Hs : split_ws cron = [dm; dh; lit "*"; lit "*"; dw])
    by (rewrite Ecron; apply cron_words; auto with pytext).
  assert (Ht : remove_blanks cron = (dm ++ dh ++ lit "**" ++ r) ++ [c]).
  { rewrite Ecron. rewrite remove_blanks_word_app by apply Wm.
    change (lit " " ++ dh ++ lit " * * " ++ dw)
      with (" "%char :: dh ++ lit " * * " ++ dw).
    unfold remove_blanks at 1. cbn [filter].
    change (negb (is_space " ")) with false. cbv iota.
    fold (remove_blanks (dh ++ lit " * * " ++ dw)).
    rewrite remove_blanks_word_app by apply Hh.
    change (lit " * * " ++ dw)
      with (" "%char :: "*"%char :: " "%char :: "*"%char :: " "%char :: dw).
    unfold remove_blanks at 1. cbn [filter].
    change (negb (is_space " ")) with false.
    change (negb (is_space "*")) with true. cbv iota.
    fold (remove_blanks dw).
    rewrite <- (app_nil_r dw) at 1.
    rewrite remove_blanks_word_app by apply Ww.
    change (remove_blanks []) with (@nil ascii). rewrite app_nil_r.
    rewrite Er. change ("*"%char :: "*"%char :: r ++ [c]) with (lit "**" ++ r ++ [c]).
    now rewrite !app_assoc. }
  assert (Hstar : Ascii.eqb c "*" = false).
  { destruct (Ascii.eqb c "*") eqn:E; [|reflexivity].
    apply Ascii.eqb_eq in E. subst c. discriminate Hc. }
  unfold timedelta_calculator.
  destruct cron as [|c0 cron0]; [discriminate Hs|]. cbv zeta.
  rewrite Ht. unfold endswith. rewrite rev_app_distr.
  change (rev [c]) with [c]. change (rev (lit "***")) with (lit "***").
  cbn [app]. change (lit "***") with ["*"%char; "*"%char; "*"%char].
  cbn [startswith]. rewrite Ascii.eqb_sym, Hstar. cbn [andb].
  rewrite item_last_snoc. cbn [bind]. rewrite Hstar. cbn [negb].
  rewrite Hs.
  change (item_last [dm; dh; lit "*"; lit "*"; dw]) with (Ok dw).
  cbn [bind]. rewrite Hw, (int_of_digits dw Hw).
  cbn [bind item nth_error]. rewrite Hi. cbn [bind].
  rewrite minute_of_digits by exact Hm. reflexivity.
Qed.

End Lag.

Section LagClassification.

Lemma minute_of_total (s : str) : exists m, minute_of s = Ok m.
Proof.
  unfold minute_of. destruct (isdigit s) eqn:E; [|now exists 0%Z].
  exists (digits_value s). now apply int_of_digits.
Qed.

Lemma endswith_stars_last (s : str) :
  endswith s (lit "***") = true -> item_last s = Ok "*"%char.
Proof.
  unfold endswith, item_last. change (rev (lit "***")) with (lit "***").
  destruct (rev s) as [|c r]; [discriminate|].
  change (lit "***") with ["*"%char; "*"%char; "*"%char].
  cbn [startswith]. intros H. apply andb_true_iff in H as [H _].
  apply Ascii.eqb_eq in H. now subst c.
Qed.

Lemma remove_blanks_nil_split (s : str) :
  remove_blanks s = [] -> split_ws s = [].
Proof.
  induction s as [|c s IH]; [reflexivity|].
  unfold remove_blanks in *. cbn [filter].
  destruct (is_space c) eqn:E; cbn [negb]; [|discriminate].
  intros H. rewrite split_ws_blank by exact E. now apply IH.
Qed.

Lemma item_last_nonempty {A} (xs : list A) :
  xs <> [] -> exists x, item_last xs = Ok x.
Proof.
  intros H. destruct (exists_last H) as (r & x & ->).
  exists x. apply item_last_snoc.
Qed.

(** C3 (as amended): on a cron string of five fields the lag calculator
    classifies by the end of the string with its blanks removed: Daily
    exactly when it ends in three stars, Weekly exactly when its last
    character is not a star (numeric weekday or not), Monthly exactly when it
    ends in a star but not in three; and on an ASCII text of at most 4300
    characters it returns whenever the hour field is an integer literal. *)
Theorem lag_classification_by_suffix (cron : str) :
  length (split_ws cron) = 5 ->
  (forall t dh dm,
      timedelta_calculator cron = Ok (t, dh, dm) ->
      (t = Daily <-> endswith (remove_blanks cron) (lit "***") = true)
      /\ (t = Weekly <->
          exists c, item_last (remove_blanks cron) = Ok c /\ c <> "*"%char)
      /\ (t = Monthly <->
          endswith (remove_blanks cron) (lit "***") = false
          /\ item_last (remove_blanks cron) = Ok "*"%char))
  /\ (ascii_text cron = true ->
      length cron <= int_max_str_digits ->
      forall hour_field h,
        nth_error (split_ws cron) 1 = Some hour_field ->
        py_int hour_field = Some h ->
        exists r, timedelta_calculator cron = Ok r).
Proof.
  intros Hlen. split.
  - intros t dh dm H. unfold timedelta_calculator in H.
    destruct cron as [|c0 cron0]; [discriminate H|]. cbv zeta in H.
    remember (remove_blanks (c0 :: cron0)) as tr eqn:Etr.
    remember (split_ws (c0 :: cron0)) as ps eqn:Eps.
    destruct (endswith tr (lit "***")) eqn:E.
    + assert (t = Daily) as ->.
      { destruct (2 <=? length ps); [repeat bind_inv H|]; now inversion H. }
      pose proof (endswith_stars_last tr E) as L.
      repeat split; try discriminate; try tauto.
      * intros (c & Hc & Hne). rewrite L in Hc. inversion Hc. now elim Hne.
      * intros [? _]. discriminate.
    + bind_inv H. destruct (Ascii.eqb a "*") eqn:Ea; cbn [negb] in H.
      * inversion H; subst. apply Ascii.eqb_eq in Ea. subst a.
        repeat split; try discriminate; auto.
        intros (c & Hc & Hne). inversion Hc. now elim Hne.
      * assert (t = Weekly) as -> by (repeat bind_inv H; now inversion H).
        repeat split; try discriminate.
        -- intros _. exists a. split; [reflexivity|].
           intros ->. discriminate Ea.
        -- intros [_ Hc]. inversion Hc. subst a. discriminate Ea.
  - intros _ _ hour_field h Hf Hi.
    assert (Hint : int_of hour_field = Ok h) by (unfold int_of; now rewrite Hi).
    unfold timedelta_calculator.
    destruct cron as [|c0 cron0]; [discriminate Hlen|]. cbv zeta.
    remember (remove_blanks (c0 :: cron0)) as tr eqn:Etr.
    assert (Htr : tr <> []).
    { intros ->. symmetry in Etr. apply remove_blanks_nil_split in Etr.
      rewrite Etr in Hlen. discriminate Hlen. }
    destruct (split_ws (c0 :: cron0)) as [|f1 [|f2 [|f3 [|f4 [|f5 [|]]]]]]; try discriminate Hlen.
    cbn [nth_error] in Hf. inversion Hf; subst f2.
    destruct (minute_of_total f1) as [m Hm].
    destruct (endswith tr (lit "***")).
    + cbn [length Nat.leb item nth_error bind]. rewrite Hint. cbn [bind].
      rewrite Hm. cbn [bind]. eauto.
    + destruct (item_last_nonempty tr Htr) as [c ->]. cbn [bind].
      destruct (negb (Ascii.eqb c "*")); [|eauto].
      change (item_last [f1; hour_field; f3; f4; f5]) with (Ok f5).
      cbn [bind]. destruct (isdigit f5) eqn:E5.
      * rewrite (int_of_digits f5 E5).
        cbn [bind item nth_error]. rewrite Hint. cbn [bind].
        rewrite Hm. cbn [bind]. eauto.
      * cbn [bind item nth_error]. rewrite Hm. cbn [bind]. eauto.
Qed.

Lemma lag_classification_by_suffix_witness :
  length (split_ws (lit "0 3 1 * *")) = 5
  /\ timedelta_calculator (lit "0 3 1 * *") = Ok (Monthly, 0%Z, 0%Z)
  /\ (Monthly = Monthly <->
      endswith (remove_blanks (lit "0 3 1 * *")) (lit "***") = false
      /\ item_last (remove_blanks (lit "0 3 1 * *")) = Ok "*"%char)
  /\ exists r, timedelta_calculator (lit "0 3 1 * *") = Ok r.
Proof.
  split; [reflexivity|]. split; [reflexivity|]. split.
  - exact (proj2 (proj2
      (proj1 (lag_classification_by_suffix (lit "0 3 1 * *") eq_refl)
             Monthly 0%Z 0%Z eq_refl))).
  - apply (proj2 (lag_classification_by_suffix (lit "0 3 1 * *") eq_refl)
             eq_refl ltac:(vm_compute; lia) (lit "3") 3%Z eq_refl eq_refl).
Defined.

(** C3 (as stated) fails: the schedule "0 3 1 * *" has a star as its
    day-of-week field and is classified Monthly, not Daily. *)
Lemma day_of_week_star_not_daily :
  ~ (forall cron f1 f2 f3 f4 f5 t dh dm,
        split_ws cron = [f1; f2; f3; f4; f5] ->
        timedelta_calculator cron = Ok (t, dh, dm) ->
        (t = Daily <-> f5 = lit "*")
        /\ (t = Weekly <-> isdigit f5 = true)
        /\ (t = Monthly <-> f5 <> lit "*" /\ isdigit f5 = false)).
Proof.
  intros H.
  destruct (H (lit "0 3 1 * *") (lit "0") (lit "3") (lit "1") (lit "*") (lit "*")
              Monthly 0%Z 0%Z eq_refl eq_refl) as [[_ D] _].
  discriminate (D eq_refl).
Qed.

(** C6: for a minute M and an hour H from 0 to 23 the lag of the daily cron
    "M H * * *" is Daily with hour offset H - 3 and minute offset M, and the
    lag of the weekly cron "M H * * w", w from 0 to 6, is Weekly with hour
    offset -((w * 24) - (H - 3)) and minute offset M. *)
Theorem lag_of_daily_and_weekly_cron (M H : Z) :
  (0 <= M)%Z -> (0 <= H <= 23)%Z ->
  timedelta_calculator
    (str_of_int M ++ lit " " ++ str_of_int H ++ lit " * * *")
  = Ok (Daily, (H - 3)%Z, M)
  /\ forall w, (0 <= w <= 6)%Z ->
       timedelta_calculator
         (str_of_int M ++ lit " " ++ str_of_int H ++ lit " * * " ++ str_of_int w)
       = Ok (Weekly, (- ((w * 24) - (H - 3)))%Z, M).
Proof.
  intros HM HH.
  destruct (str_of_int_spec M HM) as (_ & _ & VM).
  pose proof (isdigit_str_of_int M HM) as DM.
  assert (HH0 : (0 <= H)%Z) by lia.
  pose proof (isdigit_str_of_int H HH0) as DH.
  pose proof (int_of_str_of_int H HH0) as IH.
  split.
  - rewrite (timedelta_daily _ _ H DM (word_of_digits _ DH) IH).
    now rewrite VM.
  - intros w Hw.
    assert (Hw0 : (0 <= w)%Z) by lia.
    destruct (str_of_int_spec w Hw0) as (_ & _ & Vw).
    rewrite (timedelta_weekly _ _ _ H DM (word_of_digits _ DH) IH
               (isdigit_str_of_int w Hw0)).
    rewrite VM, Vw. do 2 f_equal. f_equal. lia.
Qed.

Lemma lag_of_daily_and_weekly_cron_witness :
  timedelta_calculator (lit "30 8 * * *") = Ok (Daily, 5%Z, 30%Z)
  /\ timedelta_calculator (lit "30 8 * * 1") = Ok (Weekly, (-19)%Z, 30%Z).
Proof.
  pose proof (lag_of_daily_and_weekly_cron 30 8 ltac:(lia) ltac:(lia)) as [D W].
  split; [exact D | exact (W 1%Z ltac:(lia))].
Defined.

End LagClassification.

(** ** What the matcher captures *)

Section Captures.

Lemma rep_lengths_bounds (g : bool) (lo : nat) (hi : option nat) (avail n : nat) :
  In n (rep_lengths g lo hi avail) -> lo <= n <= avail.
Proof.
  unfold rep_lengths. intros H.
  assert (H' : In n (seq lo (S (match hi with
                                | Some h => Nat.min h avail
                                | None => avail
                                end) - lo))).
  { destruct g; [now apply in_rev|exact H]. }
  apply in_seq in H'. destruct hi as [h|]; lia.
Qed.

Lemma firstn_run_len (cls : ascii -> bool) (s : str) (n : nat) :
  n <= run_len cls s ->
  forallb cls (firstn n s) = true /\ length (firstn n s) = n.
Proof.
  revert n. induction s as [|c s IH]; intros n Hn.
  - cbn [run_len] in Hn. assert (n = 0) as -> by lia. now split.
  - destruct n as [|n]; [now split|].
    cbn [run_len] in Hn. destruct (cls c) eqn:E; [|lia].
    destruct (IH n ltac:(lia)) as [A B].
    cbn [firstn forallb length]. rewrite E, A, B. now split.
Qed.

(** a pattern without groups leaves the captures as they are *)
Lemma rmatch_caps_groupless (r : regex) :
  groupless r = true ->
  forall st0 st, In st (rmatch r st0) -> caps st = caps st0.
Proof.
  induction r as [|g lo hi cls|r1 IH1 r2 IH2|r1 IH1 r2 IH2|r1 IH1|k r1 IH1| |];
    cbn [groupless rmatch]; intros G st0 st H.
  - destruct H as [<-|[]]. reflexivity.
  - apply in_map_iff in H as (n & <- & _). reflexivity.
  - apply andb_true_iff in G as [G1 G2].
    apply in_flat_map in H as (st1 & H1 & H2).
    rewrite (IH2 G2 _ _ H2). now apply IH1.
  - apply andb_true_iff in G as [G1 G2].
    apply in_app_or in H as [H|H]; [now apply IH1 | now apply IH2].
  - apply in_app_or in H as [H|[<-|[]]]; [now apply IH1 | reflexivity].
  - discriminate G.
  - destruct (pos st0 =? 0); [destruct H as [<-|[]]; reflexivity | destruct H].
  - destruct (rest st0) as [|c [|d t]].
    + destruct H as [<-|[]]. reflexivity.
    + destruct (Ascii.eqb c "010"); [destruct H as [<-|[]]; reflexivity | destruct H].
    + destruct H.
Qed.

(** a group around a repetition of a class captures a run of that class *)
Lemma rmatch_group_rep (k : nat) (g : bool) (lo : nat) (hi : option nat)
  (cls : ascii -> bool) (st0 st : mstate) :
  In st (rmatch (Group k (Rep g lo hi cls)) st0) ->
  exists txt,
    caps st = (k, txt) :: caps st0
    /\ forallb cls txt = true /\ lo <= length txt.
Proof.
  cbn [rmatch]. intros H.
  apply in_map_iff in H as (st' & <- & H).
  apply in_map_iff in H as (n & <- & H).
  apply rep_lengths_bounds in H as [Hlo Hhi].
  destruct (firstn_run_len cls (rest st0) n Hhi) as [A B].
  exists (firstn n (rest st0)). cbn [set_cap advance caps pos].
  replace (pos st0 + n - pos st0) with n by lia.
  repeat split; [exact A | now rewrite B].
Qed.

Lemma search_from_caps (r : regex) (s : str) :
  forall at_ m, search_from r at_ s = Some m ->
    exists st0 st, In st (rmatch r st0) /\ caps st0 = [] /\ m_caps m = caps st.
Proof.
  induction s as [|c s IH]; intros at_ m H; cbn [search_from] in H.
  - destruct (rmatch r (MState at_ [] [])) as [|st l] eqn:E; [discriminate|].
    inversion H; subst. exists (MState at_ [] []), st.
    rewrite E. repeat split. now left.
  - destruct (rmatch r (MState at_ (c :: s) [])) as [|st l] eqn:E.
    + now apply IH in H.
    + inversion H; subst. exists (MState at_ (c :: s) []), st.
      rewrite E. repeat split. now left.
Qed.

Lemma group_hit (k : nat) (txt : str) (cs : list (nat * str)) :
  group k ((k, txt) :: cs) = Some txt.
Proof. cbn [group]. now rewrite Nat.eqb_refl. Qed.

Lemma plus_digits_isdigit (txt : str) :
  forallb is_digit txt = true -> 1 <= length txt -> isdigit txt = true.
Proof.
  intros A B. apply isdigit_iff. split; [|exact A].
  intros ->. cbn [length] in B. lia.
Qed.

(** the two groups of an [H:MM] match are runs of digits *)
Lemma time_re_groups (s : str) (m : rematch) :
  search time_re s = Some m ->
  exists a b, group 1 (m_caps m) = Some a /\ group 2 (m_caps m) = Some b
              /\ isdigit a = true /\ isdigit b = true.
Proof.
  intros H. apply search_from_caps in H as (st0 & st & H & _ & ->).
  unfold time_re in H. cbn [rmatch] in H.
  apply in_flat_map in H as (st1 & H1 & H).
  apply in_flat_map in H as (st2 & H2 & H3).
  pose proof (rmatch_group_rep 1 true 1 None is_digit st0 st1 H1)
    as (a & Ca & Da & La).
  pose proof (rmatch_caps_groupless (chr ":") eq_refl st1 st2 H2) as C2.
  pose proof (rmatch_group_rep 2 true 1 None is_digit st2 st H3)
    as (b & Cb & Db & Lb).
  exists a, b. rewrite Cb, C2, Ca. cbn [group Nat.eqb].
  auto using plus_digits_isdigit.
Qed.

(** the first group of an am/pm match is a run of digits *)
Lemma am_pm_re_group1 (s : str) (m : rematch) :
  search am_pm_re s = Some m ->
  exists a, group 1 (m_caps m) = Some a /\ isdigit a = true.
Proof.
  intros H. apply search_from_caps in H as (st0 & st & H & _ & ->).
  unfold am_pm_re in H.
  cbn [rmatch] in H.
  apply in_flat_map in H as (st1 & H1 & H).
  apply in_flat_map in H as (st2 & H2 & H).
  apply in_flat_map in H as (st3 & H3 & H).
  apply in_flat_map in H as (st4 & H4 & H).
  apply in_map_iff in H as (st5 & <- & H5).
  pose proof (rmatch_group_rep 1 true 1 None is_digit st0 st1 H1)
    as (a & Ca & Da & La).
  pose proof (rmatch_caps_groupless (Opt (chr ":")) eq_refl st1 st2 H2) as C2.
  pose proof (rmatch_caps_groupless
                (Opt (Seq (cls1 is_digit)
                          (Seq (times 2 2 (Ascii.eqb "{")) (chr "}"))))
                eq_refl st2 st3 H3) as C3.
  pose proof (rmatch_caps_groupless (star is_space) eq_refl st3 st4 H4) as C4.
  pose proof (rmatch_caps_groupless (Alt (text "am") (text "pm")) eq_refl
                st4 st5 H5) as C5.
  exists a. cbn [set_cap caps]. rewrite C5, C4, C3, C2, Ca.
  cbn [group Nat.eqb]. auto using plus_digits_isdigit.
Qed.

(** the group of a "N day" match is a run of digits *)
Lemma n_days_re_group1 (s : str) (m : rematch) :
  search n_days_re s = Some m ->
  exists a, group 1 (m_caps m) = Some a /\ isdigit a = true.
Proof.
  intros H. apply search_from_caps in H as (st0 & st & H & _ & ->).
  unfold n_days_re in H. cbn [rmatch] in H.
  apply in_flat_map in H as (st1 & H1 & H).
  pose proof (rmatch_group_rep 1 true 1 None is_digit st0 st1 H1)
    as (a & Ca & Da & La).
  pose proof (rmatch_caps_groupless (Seq (star is_space) (text "day"))
                eq_refl st1 st H) as C2.
  exists a. rewrite C2, Ca, group_hit. auto using plus_digits_isdigit.
Qed.

Lemma extract2_dropna_head (r : regex) (rows : list str) (a b : str)
  (l : list (str * str)) :
  extract2_dropna r rows = (a, b) :: l ->
  exists s, extract2 r s = (Some a, Some b).
Proof.
  intros H.
  assert (I : In (a, b) (extract2_dropna r rows)) by (rewrite H; now left).
  unfold extract2_dropna in I. apply in_flat_map in I as (s & _ & I).
  exists s. destruct (extract2 r s) as [[x|] [y|]]; try contradiction.
  destruct I as [I|[]]. now inversion I.
Qed.

End Captures.

(** ** The schedule interpreter *)

Section Cron.

Lemma extract_minute_ok (rows : list str) (dflt : Z) :
  (0 <= dflt)%Z ->
  exists m, extract_minute rows dflt = Ok m /\ (0 <= m)%Z.
Proof.
  intros Hd. unfold extract_minute.
  destruct (extract2_dropna time_re rows) as [|[a b] l] eqn:E; [eauto|].
  apply extract2_dropna_head in E as (s & E).
  unfold extract2 in E. destruct (search time_re s) as [m|] eqn:S; [|discriminate].
  apply time_re_groups in S as (a' & b' & G1 & G2 & Da & Db).
  rewrite G1, G2 in E. inversion E; subst.
  exists (digits_value b). split; [now apply int_of_digits|].
  apply digits_value_nonneg.
Qed.

Lemma extract_hour_ok (rows : list str) (dflt : Z) :
  exists h, extract_hour rows dflt = Ok h.
Proof.
  unfold extract_hour.
  destruct (extract2_dropna am_pm_re rows) as [|[a b] l] eqn:E; [eauto|].
  apply extract2_dropna_head in E as (s & E).
  unfold extract2 in E. destruct (search am_pm_re s) as [m|] eqn:S; [|discriminate].
  apply am_pm_re_group1 in S as (a' & G1 & Da).
  rewrite G1 in E. inversion E; subst.
  rewrite (int_of_digits a Da). cbn [bind].
  destruct (str_eqb (lower b) (lit "pm") && (digits_value a <? 12)%Z); eauto.
Qed.

Lemma detect_weekday_range (txt : str) :
  (0 <= detect_weekday weekday_map txt 1 <= 6)%Z.
Proof.
  unfold weekday_map. cbn [detect_weekday].
  repeat match goal with
         | |- context [if contains ?p txt then _ else _] =>
             destruct (contains p txt)
         end; lia.
Qed.

Lemma drop_duplicates_head (x : str) (rows : list str) :
  exists l, drop_duplicates (x :: rows) = x :: l.
Proof. unfold drop_duplicates. cbn [drop_duplicates_seen existsb]. eauto. Qed.

Lemma str_of_int_no_blank (n : Z) :
  (0 <= n)%Z ->
  forallb (fun c => negb (Ascii.eqb c " ")) (str_of_int n) = true.
Proof.
  intros H. destruct (str_of_int_spec n H) as (D & _ & _).
  now apply digits_no_char.
Qed.

Lemma cron_fields (dm dh dow : str) :
  forallb (fun c => negb (Ascii.eqb c " ")) dm = true ->
  forallb (fun c => negb (Ascii.eqb c " ")) dh = true ->
  forallb (fun c => negb (Ascii.eqb c " ")) dow = true ->
  split_char " " (dm ++ lit " " ++ dh ++ lit " * * " ++ dow)
  = [dm; dh; lit "*"; lit "*"; dow].
Proof.
  intros Hm Hh Hw.
  change (lit " " ++ dh ++ lit " * * " ++ dow)
    with (" "%char :: dh ++ " "%char :: lit "*" ++ " "%char :: lit "*"
          ++ " "%char :: dow).
  rewrite !split_char_word_sep by (assumption || reflexivity).
  now rewrite split_char_word.
Qed.

(** the form of what the interpreter returns *)
Lemma discover_cron_form (series : list str) :
  series <> [] ->
  exists m h dow,
    discover_cron series
    = Ok (str_of_int m ++ lit " " ++ str_of_int h ++ lit " * * " ++ dow)
    /\ (0 <= m)%Z /\ (0 <= h < 24)%Z
    /\ (dow = lit "*" \/ exists w, (0 <= w <= 6)%Z /\ dow = str_of_int w).
Proof.
  intros Hne. destruct series as [|x rows]; [now elim Hne|].
  unfold discover_cron. cbv zeta. cbn [map].
  destruct (drop_duplicates_head (lower x) (map lower rows)) as [l ->].
  destruct (extract_minute_ok (lower x :: l) 0 ltac:(lia)) as (m & -> & Hm).
  destruct (extract_hour_ok (lower x :: l) 4) as (h0 & ->).
  cbn [bind item nth_error].
  set (h := (adjust_timezone (lower x) h0 mod 24)%Z).
  assert (Hh : (0 <= h < 24)%Z) by (apply Z.mod_pos_bound; lia).
  pose proof (detect_weekday_range (lower x)) as Hw.
  set (w := detect_weekday weekday_map (lower x) 1) in *.
  destruct (contains (lit "daily") (lower x) || contains (lit " day") (lower x)).
  - exists m, h, (lit "*"). split; [reflexivity|]. auto.
  - exists m, h, (str_of_int w). split; [reflexivity|]. eauto 7.
Qed.

(** C5: for a non-empty series of schedule texts, the cron string the
    interpreter produces has exactly five space-separated fields: the
    minute and the hour are integers printed in decimal, the hour within
    0..23, the third and fourth fields are stars, and the fifth is a star
    or an integer within 0..6.  One is produced whenever no row has more
    than 4300 characters (a longer row can hold a run of digits that [int]
    refuses). *)
Theorem discover_cron_shape (series : list str) :
  series <> [] ->
  (forall cron,
      discover_cron series = Ok cron ->
      exists m h dow,
        split_char " " cron
        = [str_of_int m; str_of_int h; lit "*"; lit "*"; dow]
        /\ split_ws cron = [str_of_int m; str_of_int h; lit "*"; lit "*"; dow]
        /\ (0 <= m)%Z /\ (0 <= h < 24)%Z
        /\ (dow = lit "*" \/ exists w, (0 <= w <= 6)%Z /\ dow = str_of_int w))
  /\ (Forall (fun row => length row <= int_max_str_digits) series ->
      exists cron, discover_cron series = Ok cron).
Proof.
  intros Hne.
  destruct (discover_cron_form series Hne) as (m & h & dow & E & Hm & Hh & Hd).
  split; [|intros _; eauto].
  intros cron Hc. rewrite E in Hc.
  replace cron
    with (str_of_int m ++ lit " " ++ str_of_int h ++ lit " * * " ++ dow)
    by congruence.
  assert (Hh0 : (0 <= h)%Z) by lia.
  exists m, h, dow.
  destruct Hd as [->|(w & Hw & ->)].
  - split; [apply cron_fields; auto using str_of_int_no_blank|].
    split; [apply cron_words; auto with pytext|]. auto.
  - assert (Hw0 : (0 <= w)%Z) by lia.
    split; [apply cron_fields; auto using str_of_int_no_blank|].
    split; [apply cron_words; auto with pytext|]. eauto 7.
Qed.

Lemma discover_cron_shape_witness :
  [lit "Every Tuesday at 7 am ET"] <> []
  /\ discover_cron [lit "Every Tuesday at 7 am ET"] = Ok (lit "0 4 * * 2")
  /\ exists m h dow,
       split_char " " (lit "0 4 * * 2")
       = [str_of_int m; str_of_int h; lit "*"; lit "*"; dow]
       /\ split_ws (lit "0 4 * * 2")
          = [str_of_int m; str_of_int h; lit "*"; lit "*"; dow]
       /\ (0 <= m)%Z /\ (0 <= h < 24)%Z
       /\ (dow = lit "*" \/ exists w, (0 <= w <= 6)%Z /\ dow = str_of_int w).
Proof.
  split; [discriminate|]. split; [reflexivity|].
  apply (proj1 (discover_cron_shape [lit "Every Tuesday at 7 am ET"]
                  ltac:(discriminate))).
  reflexivity.
Defined.

(** C4 (the code departs from it): on "10:30 am" the hour taken is 30, the
    minutes of the time, and on "8:15 pm" it is 15; only a bare hour such as
    "2 pm" is read as the claim says (14). *)
Lemma hour_of_time_with_minutes :
  extract_hour [lit "10:30 am"] 4 = Ok 30%Z
  /\ discover_cron [lit "10:30 am"] = Ok (lit "30 6 * * 1")
  /\ extract_hour [lit "8:15 pm"] 4 = Ok 15%Z
  /\ discover_cron [lit "8:15 pm"] = Ok (lit "15 15 * * 1")
  /\ extract_hour [lit "2 pm"] 4 = Ok 14%Z.
Proof. repeat split; vm_compute; reflexivity. Qed.

End Cron.

(** ** The timespan resolver *)

Section Timespan.

Lemma n_days_nonneg (s : str) (n : Z) :
  n_days s = Ok (Some n) -> (0 <= n)%Z.
Proof.
  unfold n_days. destruct (search n_days_re s) as [m|] eqn:S; [|discriminate].
  apply n_days_re_group1 in S as (a & -> & Da).
  rewrite (int_of_digits a Da). cbn [bind]. intros [= <-].
  apply digits_value_nonneg.
Qed.

Lemma datetime_valid (y m d : Z) (dt : date) :
  datetime y m d = Ok dt -> dt = Date y m d /\ valid_date y m d = true.
Proof.
  unfold datetime.
  destruct ((c_int_max <? y)%Z || (c_int_max <? m)%Z || (c_int_max <? d)%Z);
    [discriminate|].
  destruct (valid_date y m d); [|discriminate].
  intros [= <-]. now split.
Qed.

Lemma ongoing_date_valid (today : date) (s txt : str) :
  ongoing_date today s = Ok (Some txt) ->
  exists y m d, txt = strftime_ymd (Date y m d) /\ valid_date y m d = true.
Proof.
  unfold ongoing_date. intros H.
  bind_inv H. destruct a as [[y m] d].
  destruct (datetime y m d) as [dt|e] eqn:D; cbn [bind except_ValueError] in H.
  - apply datetime_valid in D as [-> V]. inversion H. eauto.
  - destruct e; discriminate H.
Qed.

(** C7 (as amended): off the "present" rule, a result of the resolver
    other than the unparsed one is a day count that is not negative, or the
    text of a valid calendar date, or one of the two rolling-window markers. *)
Theorem timespan_variants (today : date) (col : list str) (v : pyval) :
  discover_timespan today col = Ok v ->
  v <> PyNone ->
  contains (lit "present") (lower (hd [] col)) = false ->
  (exists n, v = PyInt n /\ (0 <= n)%Z)
  \/ (exists y m d,
         v = PyStr (strftime_ymd (Date y m d)) /\ valid_date y m d = true)
  \/ v = PyStr (lit "toStartOfMonth(today())")
  \/ v = PyStr (lit "toStartOfYear(today())").
Proof.
  intros H Hv Hp. destruct col as [|x rows]; [inversion H; now elim Hv|].
  unfold discover_timespan in H. cbv zeta in H.
  destruct (drop_duplicates_head x rows) as [l El]. rewrite El in H.
  cbn [map item nth_error bind hd] in *. rewrite Hp in H.
  destruct (contains (lit "mtd") (lower x)
            || contains (lit "month to date") (lower x));
    [inversion H; auto|].
  destruct (contains (lit "ytd") (lower x)
            || contains (lit "year to date") (lower x));
    [inversion H; auto|].
  destruct (contains (lit "prior day") (lower x)
            || contains (lit "previous day") (lower x)).
  { inversion H. left. exists 1%Z. split; [reflexivity|lia]. }
  destruct (contains (lit "ongoing") (lower x)
            || contains (lit "starting") (lower x)).
  - destruct (ongoing_date today (lower x)) as [[txt|]|e] eqn:E;
      cbn [bind] in H; [| |discriminate H].
    + apply ongoing_date_valid in E as (y & m & d & -> & V).
      inversion H. right. left. eauto.
    + inversion H; subst. now elim Hv.
  - destruct (n_days (lower x)) as [[n|]|e] eqn:E;
      cbn [bind] in H; [| |discriminate H].
    + apply n_days_nonneg in E. inversion H. left. eauto.
    + inversion H; subst. now elim Hv.
Qed.

Lemma timespan_variants_witness :
  discover_timespan (Date 2026 11 3) [lit "Starting 2/29/2024"]
  = Ok (PyStr (lit "2024-02-29"))
  /\ ((exists n, PyStr (lit "2024-02-29") = PyInt n /\ (0 <= n)%Z)
      \/ (exists y m d,
             PyStr (lit "2024-02-29") = PyStr (strftime_ymd (Date y m d))
             /\ valid_date y m d = true)
      \/ PyStr (lit "2024-02-29") = PyStr (lit "toStartOfMonth(today())")
      \/ PyStr (lit "2024-02-29") = PyStr (lit "toStartOfYear(today())")).
Proof.
  split; [reflexivity|].
  apply (timespan_variants (Date 2026 11 3) [lit "Starting 2/29/2024"]).
  - reflexivity.
  - discriminate.
  - reflexivity.
Defined.

(** C7 (as stated) fails: "Last 0 days" resolves to the day count 0, which
    is not positive. *)
Lemma zero_day_count_returned :
  ~ (forall today col v,
        discover_timespan today col = Ok v ->
        v <> PyNone ->
        (exists n, v = PyInt n /\ (0 < n)%Z)
        \/ (exists y m d,
               v = PyStr (strftime_ymd (Date y m d)) /\ valid_date y m d = true)
        \/ v = PyStr (lit "toStartOfMonth(today())")
        \/ v = PyStr (lit "toStartOfYear(today())")).
Proof.
  intros H.
  destruct (H (Date 2026 11 3) [lit "Last 0 days"] (PyInt 0) eq_refl
              ltac:(discriminate))
    as [(n & E & Hn) | [(y & m & d & E & _) | [E | E]]];
    try discriminate E.
  inversion E. lia.
Qed.

(** the "present" rule formats the month and the day it reads without
    checking them against the calendar *)
Example present_date_unchecked :
  discover_timespan (Date 2026 11 3) [lit "Present 13/45"]
  = Ok (PyStr (lit "2026-13-45"))
  /\ valid_date 2026 13 45 = false.
Proof. split; reflexivity. Qed.

End Timespan.

(** ** The column spec parser *)

Section Columns.



Lemma select_df_rows (texts : list str) (r : column_spec) :
  In r (select_df texts) -> exists token, r = build_spec token.
Proof.
  unfold select_df. intros H. apply in_map_iff in H as (token & <- & _).
  now exists token.
Qed.

Lemma build_spec_columns (token : str) :
  let r := build_spec token in
  selects_for_sql r = generate_selects (main_text r)
  /\ aliases_for_sql r = replace_char " " (lit "_") (main_text r) ++ lit "_as_column"
  /\ json_col_names r = aliases_for_sql r ++ lit "|" ++ modified_main_text r
  /\ final_sql_select_column r
     = fillna_empty (selects_for_sql r) ++ lit " as " ++ aliases_for_sql r.
Proof. repeat split. Qed.

(** a row drops out of the GROUP BY list when its expression is null or is
    flagged as an aggregate *)
Lemma group_by_list_skip (pre post : list column_spec) (r : column_spec) :
  selects_for_sql r = None \/ contains_aggregate (selects_for_sql r) = true ->
  group_by_list (pre ++ r :: post) = group_by_list (pre ++ post).
Proof.
  intros H. unfold group_by_list, group_by_df.
  rewrite !filter_app, !flat_map_app. f_equal.
  cbn [filter]. destruct H as [H|H]; rewrite H.
  - cbn [contains_aggregate negb flat_map app]. now rewrite H.
  - reflexivity.
Qed.

Lemma split_expand_first_ok (series : list str) :
  existsb (fun p => 1 <? length p) (map (split_char "~") series) = true ->
  exists lid hid,
    split_expand_first 0 series = Ok lid /\ split_expand_first 1 series = Ok hid.
Proof.
  intros H. unfold split_expand_first. rewrite H.
  assert (H0 : existsb (fun p => 0 <? length p) (map (split_char "~") series) = true).
  { apply existsb_exists in H as (p & Hp & Hl).
    apply existsb_exists. exists p. split; [exact Hp|].
    apply Nat.ltb_lt in Hl. apply Nat.ltb_lt. lia. }
  rewrite H0.
  destruct (map (split_char "~") series) as [|row parts]; [discriminate H|].
  destruct row as [|a [|b row]]; do 2 eexists; split; reflexivity.
Qed.



(** C9: the keys "publisher name", "pub name" and "publisher" map to
    affiliate_account_name, which holds the text "count"; the aggregate
    test flags the column, and it is left out of the GROUP BY list. *)
Theorem publisher_flagged_as_aggregate (texts : list str)
  (pre post : list column_spec) (r : column_spec) :
  select_df texts = pre ++ r :: post ->
  In (lower (strip (main_text r)))
     [lit "publisher name"; lit "pub name"; lit "publisher"] ->
  selects_for_sql r = Some (lit "affiliate_account_name")
  /\ contains (lit "count") (lit "affiliate_account_name") = true
  /\ contains_aggregate (selects_for_sql r) = true
  /\ ~ In r (group_by_df (pre ++ r :: post))
  /\ group_by_list (pre ++ r :: post) = group_by_list (pre ++ post).
Proof.
  intros Hrows Hkey.
  assert (Hin : In r (select_df texts)) by (rewrite Hrows; apply in_elt).
  apply select_df_rows in Hin as [token ->].
  destruct (build_spec_columns token) as (Es & _). cbv zeta in Es.
  assert (E : selects_for_sql (build_spec token)
              = Some (lit "affiliate_account_name")).
  { rewrite Es. unfold generate_selects.
    destruct Hkey as [<-|[<-|[<-|[]]]]; reflexivity. }
  assert (A : contains_aggregate (selects_for_sql (build_spec token)) = true)
    by (rewrite E; reflexivity).
  split; [exact E|]. split; [reflexivity|]. split; [exact A|].
  split.
  - unfold group_by_df. intros H. apply filter_In in H as [_ H].
    rewrite A in H. discriminate H.
  - apply group_by_list_skip. now right.
Qed.

Lemma publisher_flagged_as_aggregate_witness :
  selects_for_sql (build_spec (lit "publisher name"))
  = Some (lit "affiliate_account_name")
  /\ contains_aggregate (selects_for_sql (build_spec (lit "publisher name"))) = true
  /\ melted_group_by (select_df publisher_text) = lit "event_date".
Proof.
  destruct (publisher_flagged_as_aggregate publisher_text
              [build_spec (lit "date")] [] (build_spec (lit "publisher name"))
              eq_refl (or_introl eq_refl))
    as (A & _ & B & _ & G).
  split; [exact A|]. split; [exact B|].
  unfold melted_group_by.
  change (select_df publisher_text)
    with ([build_spec (lit "date")] ++ build_spec (lit "publisher name") :: []).
  rewrite G. reflexivity.
Defined.

(** C2 (the code departs from it): the token "CPC - cost per click" keeps
    its annotation in the name, which the mapping table does not know, so
    the expression is null; the annotation after an equals sign is dropped
    as the claim says, and a bare "cpc" maps to the guarded division. *)
Lemma dash_annotation_kept_in_name :
  token_main_text (lit "cpc - cost per click") = lit "cpc - cost per click"
  /\ generate_selects (token_main_text (lit "cpc - cost per click")) = None
  /\ map main_text (select_df [lit "Clicks, CPC - cost per click, Publisher Name"])
     = [lit "clicks"; lit "cpc - cost per click"; lit "publisher name"]
  /\ map selects_for_sql
       (select_df [lit "Clicks, CPC - cost per click, Publisher Name"])
     = [Some (lit "COALESCE(sum(paid_clicks),0)"); None;
        Some (lit "affiliate_account_name")]
  /\ token_main_text (lit "cpc = cost per click") = lit "cpc"
  /\ generate_selects (lit "cpc")
     = Some (lit "CASE WHEN isNaN(round(sum(revenue)/sum(paid_clicks),2)) THEN 0 ELSE round(sum(revenue)/sum(paid_clicks),2) END").
Proof. repeat split; vm_compute; reflexivity. Qed.

End Columns.

(** ** The job assembler *)

Arguments q : simpl never.

Section Assembly.

(** the lag calculator accepts every cron string the interpreter returns *)
Lemma discover_cron_lag (series : list str) :
  series <> [] ->
  exists cron tv,
    discover_cron series = Ok cron /\ timedelta_calculator cron = Ok tv.
Proof.
  intros Hne.
  destruct (discover_cron_form series Hne) as (m & h & dow & E & Hm & Hh & Hd).
  assert (Hh0 : (0 <= h)%Z) by lia.
  destruct Hd as [->|(w & Hw & ->)];
    do 2 eexists; (split; [exact E|]).
  - apply (timedelta_daily _ _ h); auto with pytext.
  - assert (Hw0 : (0 <= w)%Z) by lia.
    apply (timedelta_weekly _ _ _ h); auto with pytext.
Qed.

Lemma get_advertiser_name_ok (self : generator) (today : date)
  (series : list str) :
  existsb (fun p => 1 <? length p) (map (split_char "~") series) = true ->
  exists name, get_advertiser_name self today series = Ok name.
Proof.
  intros H. destruct (split_expand_first_ok series H) as (lid & hid & E0 & E1).
  unfold get_advertiser_name. rewrite E0, E1. cbn [bind]. cbv zeta.
  destruct (client self _) as [|n0 l0]; [destruct (client self _)|]; eauto.
Qed.

Lemma item_head {A} (xs : list A) :
  xs <> [] -> exists x, item xs 0 = Ok x.
Proof.
  destruct xs as [|x xs]; intros H; [now elim H|].
  now exists x.
Qed.

Lemma read_written (self : generator) (doc path : str) (w w1 : world) :
  export_json self doc path w = Ok w1 ->
  exists json_file,
    opens w path = Ok json_file
    /\ read_file json_file (files w1) = Some (json_dumps (collapse doc))
    /\ stdout w1 = stdout w ++ [collapse doc].
Proof.
  unfold export_json. cbv zeta. intros H.
  destruct (opens w path) as [json_file|e]; cbn [bind] in H; [|discriminate H].
  exists json_file. split; [reflexivity|].
  replace w1
    with (World (opens w) ((json_file, json_dumps (collapse doc)) :: files w)
                (stdout w ++ [collapse doc])) by congruence.
  cbn [files stdout read_file]. now rewrite Nat.eqb_refl.
Qed.

(** the schedule interpreter returns on a non-empty series only *)
Lemma discover_cron_ok_nonempty (series : list str) (cron : str) :
  discover_cron series = Ok cron -> series <> [].
Proof. intros H ->. discriminate H. Qed.

(** the fallback window of the default job *)
Lemma default_job_of_none (self : generator)
  (delivery recipients advertiser_input cron_job : str)
  (sql_elements : list pyval) (doc : str) :
  assemble_default_dag_json self delivery recipients advertiser_input PyNone
    cron_job sql_elements = Ok doc ->
  contains (lit ":startDate AND :endDate") doc = true.
Proof.
  unfold assemble_default_dag_json. intros H.
  bind_inv H. cbn [py_eq_str] in H. cbv iota beta in H.
  repeat bind_inv H.
  match type of H with
  | Ok ?t = Ok _ => replace doc with t by congruence
  end.
  repeat match goal with
         | |- contains ?p (?p ++ _) = true => apply contains_prefix
         | |- contains ?p (?x ++ ?s) = true => apply (contains_skip p x s)
         end.
Qed.

(** C1 (as amended): a ticket whose timespan text is unparsed does not stop
    the run.  Once the steps before the assembly have returned (delivery
    method, recipients, advertiser name, cron string, SQL elements), the
    default job is assembled with the fallback window
    [:startDate AND :endDate] and handed to the export: the run ends as the
    export and then the sample report end, and when the job file can be
    opened it holds the document. *)
Theorem unparsed_timespan_falls_back (self : generator) (today : date)
  (df : dataframe) (json_path csv_path : str) (w : world)
  (delivery recipients advertiser_input cron_job : str)
  (sql_elements : list pyval) :
  discover_timespan today (time_span df) = Ok PyNone ->
  item (map lower (delivery_method df)) 0 = Ok delivery ->
  item (map (fun r => replace_char ";" (lit ",") (lower r))
            (recipient_list df)) 0 = Ok recipients ->
  get_advertiser_name self today (lid_hid df) = Ok advertiser_input ->
  discover_cron (period_and_time df) = Ok cron_job ->
  sql_statement_generator df = Ok sql_elements ->
  exists doc,
    assemble self delivery recipients advertiser_input PyNone cron_job
      sql_elements = Ok doc
    /\ assemble_default_dag_json self delivery recipients advertiser_input
         PyNone cron_job sql_elements = Ok doc
    /\ contains (lit ":startDate AND :endDate") doc = true
    /\ generate_json_and_sample self today df json_path csv_path w
       = match export_json self doc json_path w with
         | Ok w1 =>
             match
               sample_report_generator self sql_elements PyNone csv_path w1
             with
             | (Ok sample_report, w2) =>
                 (Ok (collapse doc, sample_report), w2)
             | (Raise e, w2) => (Raise e, w2)
             end
         | Raise e => (Raise e, w)
         end
    /\ (forall w1,
           export_json self doc json_path w = Ok w1 ->
           exists json_file,
             opens w json_path = Ok json_file
             /\ read_file json_file (files w1)
                = Some (json_dumps (collapse doc))).
Proof.
  intros Hts Ed Er Ea Ec Es.
  destruct (discover_cron_lag _ (discover_cron_ok_nonempty _ _ Ec))
    as (cron & tv & Ec' & Et).
  assert (cron = cron_job) as -> by congruence.
  assert (Hsql : exists e0 e1 e2 e3 e4 e5,
             sql_elements = [e0; e1; e2; e3; e4; e5]).
  { unfold sql_statement_generator in Es. cbv zeta in Es.
    repeat bind_inv Es. inversion Es. eauto 7. }
  destruct Hsql as (e0 & e1 & e2 & e3 & e4 & e5 & ->).
  assert (Edoc : exists doc,
             assemble_default_dag_json self delivery recipients advertiser_input
               PyNone cron_job [e0; e1; e2; e3; e4; e5] = Ok doc).
  { unfold assemble_default_dag_json. rewrite Et.
    cbn [bind py_eq_str item nth_error]. eauto. }
  destruct Edoc as [doc Edoc].
  exists doc.
  split; [exact Edoc|]. split; [exact Edoc|].
  split; [exact (default_job_of_none _ _ _ _ _ _ _ Edoc)|].
  split.
  - unfold generate_json_and_sample.
    rewrite Ed. cbn [bind]. rewrite Er. cbn [bind]. rewrite Ea. cbn [bind].
    rewrite Hts. cbn [bind]. rewrite Ec. cbn [bind]. rewrite Es.
    cbn [bind assemble]. rewrite Edoc. cbn [bind].
    destruct (export_json self doc json_path w); reflexivity.
  - intros w1 Hw. destruct (read_written _ _ _ _ _ Hw) as (f & Ho & Hr & _).
    eauto.
Qed.

End Assembly.

Section Runs.

Lemma unparsed_timespan_falls_back_witness :
  discover_timespan (Date 2026 11 3) (time_span unparsed_ticket) = Ok PyNone
  /\ exists doc w2,
       generate_json_and_sample sample_generator (Date 2026 11 3)
         unparsed_ticket (lit "job.json") (lit "sample.csv") sample_world
       = (Ok (collapse doc, []), w2)
       /\ read_file 0 (files w2) = Some (json_dumps (collapse doc))
       /\ contains (lit ":startDate AND :endDate") doc = true.
Proof.
  split; [reflexivity|].
  edestruct (unparsed_timespan_falls_back sample_generator (Date 2026 11 3)
               unparsed_ticket (lit "job.json") (lit "sample.csv")
               sample_world)
    as (doc & _ & _ & C & G & _); [reflexivity ..|].
  exists doc. eexists. split; [exact G|]. split; [|exact C].
  cbn [files read_file Nat.eqb]. reflexivity.
Defined.

(** C1 (as stated) fails: for the timespan text "whenever" the resolver
    gives the unparsed result, and the run neither raises nor leaves the
    world as it was: a job is returned and its file is written. *)
Lemma unparsed_timespan_job_written :
  ~ (forall self today df json_path csv_path w,
        discover_timespan today (time_span df) = Ok PyNone ->
        exists e, generate_json_and_sample self today df json_path csv_path w
                  = (Raise e, w)).
Proof.
  intros H.
  destruct (H sample_generator (Date 2026 11 3) unparsed_ticket
              (lit "job.json") (lit "sample.csv") sample_world eq_refl)
    as [e He].
  vm_compute in He. discriminate He.
Qed.

End Runs.

(** * Further properties *)

(** ** Characters *)

Section Characters.

Lemma lower_char_idem (c : ascii) : lower_char (lower_char c) = lower_char c.
Proof. destruct c as [[] [] [] [] [] [] [] []]; reflexivity. Qed.

Lemma lower_char_space (c : ascii) : is_space (lower_char c) = is_space c.
Proof. destruct c as [[] [] [] [] [] [] [] []]; reflexivity. Qed.

Lemma lower_char_digit (c : ascii) : is_digit c = true -> lower_char c = c.
Proof. destruct c as [[] [] [] [] [] [] [] []]; intros H; try reflexivity; discriminate H. Qed.

Lemma lower_idem (s : str) : lower (lower s) = lower s.
Proof.
  unfold lower. rewrite map_map. apply map_ext. apply lower_char_idem.
Qed.

Lemma lower_digits (s : str) : forallb is_digit s = true -> lower s = s.
Proof.
  induction s as [|c s IH]; [reflexivity|].
  cbn [forallb]. intros H. apply andb_true_iff in H as [Hc Hs].
  unfold lower in *. cbn [map]. now rewrite (lower_char_digit c Hc), IH.
Qed.

Lemma lower_app (a b : str) : lower (a ++ b) = lower a ++ lower b.
Proof. apply map_app. Qed.

End Characters.

(** ** More on the lag calculator *)

Section LagEdges.

Lemma remove_blanks_blank (s : str) :
  forallb is_space s = true -> remove_blanks s = [].
Proof.
  induction s as [|c s IH]; [reflexivity|].
  cbn [forallb]. intros H. apply andb_true_iff in H as [Hc Hs].
  unfold remove_blanks in *. cbn [filter]. rewrite Hc. cbn [negb]. now apply IH.
Qed.

(** X1: a cron text made of blanks only does not get the [ValueError] of the
    empty text: the look at the last character raises [IndexError]. *)
Theorem timedelta_blank_input (cron : str) :
  cron <> [] -> forallb is_space cron = true ->
  timedelta_calculator cron = Raise IndexError.
Proof.
  intros Hne Hb. unfold timedelta_calculator.
  destruct cron as [|c cron]; [now elim Hne|]. cbv zeta.
  now rewrite (remove_blanks_blank _ Hb).
Qed.

Lemma timedelta_blank_input_witness :
  timedelta_calculator (lit "   ") = Raise IndexError
  /\ timedelta_calculator [] = Raise ValueError.
Proof.
  split; [|reflexivity].
  apply (timedelta_blank_input (lit "   ")); [discriminate | reflexivity].
Defined.

Lemma word_nonempty (w : str) : word w -> exists c r, w = c :: r /\ is_space c = false.
Proof.
  intros [Hne Hw]. destruct w as [|c r]; [now elim Hne|].
  exists c, r. split; [reflexivity|].
  cbn [forallb] in Hw. apply andb_true_iff in Hw as [Hc _].
  now apply negb_true_iff in Hc.
Qed.

(** [split()] undoes [' '.join] on blank-free, non-empty fields *)
Lemma split_ws_join (fields : list str) :
  Forall word fields -> split_ws (join (lit " ") fields) = fields.
Proof.
  induction fields as [|f fields IH]; intros H; [reflexivity|].
  inversion H as [|? ? Hf Hr]; subst.
  destruct fields as [|g fields].
  - cbn [join]. now apply split_ws_word.
  - change (join (lit " ") (f :: g :: fields))
      with (f ++ " "%char :: join (lit " ") (g :: fields)).
    rewrite split_ws_word_blank by (auto; reflexivity).
    now rewrite IH.
Qed.

Lemma remove_blanks_join (fields : list str) :
  Forall word fields -> remove_blanks (join (lit " ") fields) = List.concat fields.
Proof.
  induction fields as [|f fields IH]; intros H; [reflexivity|].
  inversion H as [|? ? Hf Hr]; subst.
  destruct fields as [|g fields].
  - cbn [join List.concat]. rewrite app_nil_r.
    rewrite <- (app_nil_r f) at 1.
    rewrite remove_blanks_word_app by apply Hf. apply app_nil_r.
  - change (join (lit " ") (f :: g :: fields))
      with (f ++ " "%char :: join (lit " ") (g :: fields)).
    rewrite remove_blanks_word_app by apply Hf.
    unfold remove_blanks at 1. cbn [filter].
    change (negb (is_space " ")) with false. cbv iota.
    fold (remove_blanks (join (lit " ") (g :: fields))).
    rewrite IH by exact Hr. reflexivity.
Qed.

(** X2: on a cron text of ASCII fields whose last field is a weekday that
    is not a number (and does not end in a star) the calculator answers
    Weekly with hour offset 0, and does not read the hour field at all: the
    call returns whatever that field holds, the first field (of at most
    4300 characters) giving the minute offset. *)
Theorem timedelta_named_weekday (fields : list str) (weekday : str) :
  Forall word (fields ++ [weekday]) ->
  Forall (fun field => ascii_text field = true) (fields ++ [weekday]) ->
  length (hd [] (fields ++ [weekday])) <= int_max_str_digits ->
  isdigit weekday = false ->
  endswith weekday (lit "*") = false ->
  exists m,
    minute_of (hd [] (fields ++ [weekday])) = Ok m
    /\ timedelta_calculator (join (lit " ") (fields ++ [weekday]))
       = Ok (Weekly, 0%Z, m).
Proof.
  intros Hw _ _ Hd He.
  destruct (minute_of_total (hd [] (fields ++ [weekday]))) as [m Hm].
  exists m. split; [exact Hm|].
  assert (Ww : word weekday).
  { rewrite Forall_forall in Hw. apply Hw. apply in_or_app. right. now left. }
  destruct Ww as [Wne _].
  destruct (exists_last Wne) as (r & c & Er).
  assert (Hc : Ascii.eqb c "*" = false).
  { rewrite Er in He. unfold endswith in He. rewrite rev_app_distr in He.
    change (rev (lit "*")) with ["*"%char] in He.
    cbn [rev app startswith] in He. rewrite Ascii.eqb_sym in He.
    now destruct (Ascii.eqb c "*"). }
  pose proof (split_ws_join _ Hw) as Hs.
  pose proof (remove_blanks_join _ Hw) as Ht.
  rewrite concat_app in Ht. cbn [List.concat] in Ht. rewrite app_nil_r in Ht.
  replace (List.concat fields ++ weekday)
    with ((List.concat fields ++ r) ++ [c]) in Ht
    by (rewrite Er, app_assoc; reflexivity).
  unfold timedelta_calculator.
  destruct (join (lit " ") (fields ++ [weekday])) as [|c0 cron0] eqn:Ej.
  { destruct fields; discriminate Hs. }
  cbv zeta. rewrite Ht, Hs.
  unfold endswith at 1. rewrite rev_app_distr.
  change (rev [c]) with [c]. change (rev (lit "***")) with ["*"%char; "*"%char; "*"%char].
  cbn [app startswith]. rewrite Ascii.eqb_sym, Hc. cbn [andb].
  rewrite !item_last_snoc. cbn [bind]. rewrite Hc. cbn [negb bind].
  rewrite Hd. cbn [bind].
  assert (H0 : item (fields ++ [weekday]) 0 = Ok (hd [] (fields ++ [weekday])))
    by (destruct fields; reflexivity).
  rewrite H0. cbn [bind]. rewrite Hm. reflexivity.
Qed.

Lemma timedelta_named_weekday_witness :
  exists m,
    minute_of (lit "15") = Ok m
    /\ timedelta_calculator (lit "15 half-past * * mon") = Ok (Weekly, 0%Z, m).
Proof.
  apply (timedelta_named_weekday
           [lit "15"; lit "half-past"; lit "*"; lit "*"] (lit "mon")).
  - repeat constructor; discriminate.
  - repeat constructor.
  - vm_compute. lia.
  - reflexivity.
  - reflexivity.
Defined.

(** X3: the lag calculator accepts every cron string the schedule
    interpreter produces, and never classifies one as Monthly: the lag is
    Daily with an hour offset from -3 to 20, or Weekly with an hour offset
    from -147 to 20; the minute offset is not negative. *)
Theorem interpreter_lag_never_monthly (series : list str) (cron : str) :
  discover_cron series = Ok cron ->
  exists t dh dm,
    timedelta_calculator cron = Ok (t, dh, dm)
    /\ (0 <= dm)%Z
    /\ ((t = Daily /\ (-3 <= dh <= 20)%Z)
        \/ (t = Weekly /\ (-147 <= dh <= 20)%Z)).
Proof.
  intros Hc.
  destruct (discover_cron_form series (discover_cron_ok_nonempty _ _ Hc))
    as (m & h & dow & E & Hm & Hh & Hd).
  rewrite E in Hc.
  replace cron
    with (str_of_int m ++ lit " " ++ str_of_int h ++ lit " * * " ++ dow)
    by congruence.
  assert (Hh0 : (0 <= h)%Z) by lia.
  destruct (str_of_int_spec m Hm) as (_ & _ & Vm).
  destruct Hd as [->|(w & Hw & ->)].
  - exists Daily, (h - 3)%Z, m. split.
    + rewrite <- Vm at 2. apply (timedelta_daily _ _ h); auto with pytext.
    + split; [exact Hm|]. left. split; [reflexivity|lia].
  - assert (Hw0 : (0 <= w)%Z) by lia.
    destruct (str_of_int_spec w Hw0) as (_ & _ & Vw).
    exists Weekly, ((w * 24 - (h - 3)) * -1)%Z, m. split.
    + rewrite <- Vm at 2. rewrite <- Vw at 2.
      apply (timedelta_weekly _ _ _ h); auto with pytext.
    + split; [exact Hm|]. right. split; [reflexivity|lia].
Qed.

Lemma interpreter_lag_never_monthly_witness :
  discover_cron [lit "Every Saturday at 1 am ET"] = Ok (lit "0 22 * * 6")
  /\ exists t dh dm,
       timedelta_calculator (lit "0 22 * * 6") = Ok (t, dh, dm)
       /\ (0 <= dm)%Z
       /\ ((t = Daily /\ (-3 <= dh <= 20)%Z)
           \/ (t = Weekly /\ (-147 <= dh <= 20)%Z)).
Proof.
  split; [reflexivity|].
  apply (interpreter_lag_never_monthly [lit "Every Saturday at 1 am ET"]).
  reflexivity.
Defined.

(** X4: the schedule interpreter raises [IndexError] exactly on an empty
    series (the look at the first row); no text of a row makes it raise
    that. *)
Theorem discover_cron_raises_iff (series : list str) :
  discover_cron series = Raise IndexError <-> series = [].
Proof.
  split.
  - intros H. destruct series as [|x rows]; [reflexivity|].
    destruct (discover_cron_form (x :: rows) ltac:(discriminate))
      as (m & h & dow & E & _).
    rewrite E in H. discriminate H.
  - intros ->. reflexivity.
Qed.

End LagEdges.

(** ** More on the schedule interpreter and the timespan resolver *)

Section Rows.

(** X5: the rows after the first can change the minute and the hour of the
    cron string only: when the interpreter returns on a series and on its
    first row alone, the day-of-month, month and day-of-week fields of the
    two cron strings are the same. *)
Theorem later_rows_keep_day_fields (x : str) (rows : list str)
  (cron cron1 : str) :
  discover_cron (x :: rows) = Ok cron ->
  discover_cron [x] = Ok cron1 ->
  exists m h m' h' dow,
    cron = str_of_int m ++ lit " " ++ str_of_int h ++ lit " * * " ++ dow
    /\ cron1
       = str_of_int m' ++ lit " " ++ str_of_int h' ++ lit " * * " ++ dow.
Proof.
  unfold discover_cron. cbv zeta. cbn [map].
  destruct (drop_duplicates_head (lower x) (map lower rows)) as [l ->].
  destruct (drop_duplicates_head (lower x) []) as [l' ->].
  destruct (extract_minute_ok (lower x :: l) 0 ltac:(lia)) as (m & -> & _).
  destruct (extract_hour_ok (lower x :: l) 4) as (h0 & ->).
  destruct (extract_minute_ok (lower x :: l') 0 ltac:(lia)) as (m' & -> & _).
  destruct (extract_hour_ok (lower x :: l') 4) as (h0' & ->).
  cbn [bind item nth_error].
  destruct (contains (lit "daily") (lower x) || contains (lit " day") (lower x));
    intros H1 H2;
    match type of H1 with Ok ?t = Ok _ => replace cron with t by congruence end;
    match type of H2 with Ok ?t = Ok _ => replace cron1 with t by congruence end;
    do 5 eexists; split; reflexivity.
Qed.

Lemma later_rows_keep_day_fields_witness :
  discover_cron [lit "every friday"; lit "at 10:30, 5 pm"]
  = Ok (lit "30 17 * * 5")
  /\ discover_cron [lit "every friday"] = Ok (lit "0 4 * * 5")
  /\ exists m h m' h' dow,
       lit "30 17 * * 5"
       = str_of_int m ++ lit " " ++ str_of_int h ++ lit " * * " ++ dow
       /\ lit "0 4 * * 5"
          = str_of_int m' ++ lit " " ++ str_of_int h' ++ lit " * * " ++ dow.
Proof.
  split; [reflexivity|]. split; [reflexivity|].
  apply (later_rows_keep_day_fields (lit "every friday")
           [lit "at 10:30, 5 pm"]); reflexivity.
Defined.

(** X6: the timespan resolver reads the first row only, and reads it
    without regard to case. *)
Theorem discover_timespan_first_row (today : date) (x : str) (rows : list str) :
  discover_timespan today (x :: rows) = discover_timespan today [lower x].
Proof.
  unfold discover_timespan. cbv zeta.
  destruct (drop_duplicates_head x rows) as [l ->].
  destruct (drop_duplicates_head (lower x) []) as [l' ->].
  cbn [map item nth_error bind]. rewrite lower_idem. reflexivity.
Qed.

End Rows.

Section DayCount.

Lemma contains_cons (p : str) (c : ascii) (s : str) :
  contains p (c :: s) = startswith p (c :: s) || contains p s.
Proof. reflexivity. Qed.

Lemma startswith_before_digits (p s d b : str) (x : ascii) :
  forallb (fun c => negb (is_digit c)) p = true ->
  is_digit x = true ->
  startswith p (s ++ x :: d ++ b) = startswith p s.
Proof.
  intros Hp Hx. revert p Hp.
  induction s as [|y s IH]; intros [|c p] Hp; try reflexivity.
  - cbn [forallb] in Hp. apply andb_true_iff in Hp as [Hc _].
    cbn [app startswith].
    destruct (Ascii.eqb c x) eqn:E; [|reflexivity].
    apply Ascii.eqb_eq in E. subst c. now rewrite Hx in Hc.
  - cbn [forallb] in Hp. apply andb_true_iff in Hp as [_ Hp].
    cbn [app startswith]. now rewrite IH.
Qed.

(** a keyword without digits lies before or after a run of digits, never
    across it *)
Lemma contains_around_digits (p a d b : str) :
  p <> [] ->
  forallb (fun c => negb (is_digit c)) p = true ->
  d <> [] -> forallb is_digit d = true ->
  contains p (a ++ d ++ b) = contains p a || contains p b.
Proof.
  intros Hne Hp Hd Dd.
  destruct p as [|c p]; [now elim Hne|].
  assert (Hc : is_digit c = false).
  { cbn [forallb] in Hp. apply andb_true_iff in Hp as [Hc _].
    now apply negb_true_iff in Hc. }
  assert (Skip : forall t, forallb is_digit t = true ->
                           contains (c :: p) (t ++ b) = contains (c :: p) b).
  { induction t as [|x t IH]; [reflexivity|].
    cbn [forallb]. intros H. apply andb_true_iff in H as [Hx Ht].
    cbn [app]. rewrite contains_cons. cbn [startswith].
    destruct (Ascii.eqb c x) eqn:E.
    - apply Ascii.eqb_eq in E. subst x. now rewrite Hx in Hc.
    - cbn [andb orb]. now apply IH. }
  destruct d as [|x d]; [now elim Hd|].
  assert (Hx : is_digit x = true)
    by (cbn [forallb] in Dd; now apply andb_true_iff in Dd).
  induction a as [|y a IH].
  - change ([] ++ (x :: d) ++ b) with ((x :: d) ++ b).
    rewrite (Skip (x :: d) Dd). reflexivity.
  - change ((y :: a) ++ (x :: d) ++ b) with (y :: (a ++ (x :: d) ++ b)).
    rewrite !contains_cons, IH.
    change (y :: a ++ (x :: d) ++ b) with ((y :: a) ++ x :: d ++ b).
    rewrite (startswith_before_digits (c :: p) (y :: a) d b x Hp Hx).
    now rewrite orb_assoc.
Qed.

Lemma run_len_app (cls : ascii -> bool) (d : str) (b : ascii) (s : str) :
  forallb cls d = true -> cls b = false ->
  run_len cls (d ++ b :: s) = length d.
Proof.
  intros Hd Hb. induction d as [|x d IH]; cbn [app run_len length].
  - now rewrite Hb.
  - cbn [forallb] in Hd. apply andb_true_iff in Hd as [Hx Hd].
    rewrite Hx. now rewrite IH.
Qed.

Lemma rep_lengths_greedy_head (lo n : nat) :
  lo <= S n ->
  exists l, rep_lengths true lo None (S n) = S n :: l.
Proof.
  intros H. unfold rep_lengths.
  replace (S (S n) - lo) with (S (S n - lo)) by lia.
  rewrite seq_S, rev_app_distr. cbn [rev app].
  replace (lo + (S n - lo)) with (S n) by lia. eauto.
Qed.

Lemma search_from_skip (r : regex) (at_ : nat) (c : ascii) (s : str) :
  rmatch r (MState at_ (c :: s) []) = [] ->
  search_from r at_ (c :: s) = search_from r (S at_) s.
Proof. intros H. cbn [search_from]. now rewrite H. Qed.

Lemma n_days_re_nondigit (at_ : nat) (c : ascii) (s : str) :
  is_digit c = false -> rmatch n_days_re (MState at_ (c :: s) []) = [].
Proof.
  intros H. unfold n_days_re, plus. cbn [rmatch rest run_len]. rewrite H.
  reflexivity.
Qed.

Lemma n_days_re_tail (p : nat) (cs : list (nat * str)) :
  exists st,
    flat_map (rmatch (text (lit "day")))
             (rmatch (star is_space) (MState p (" "%char :: lit "days") cs))
    = [st] /\ caps st = cs.
Proof. eexists. split; reflexivity. Qed.

(** the match of "N day" in "last N days" *)
Lemma search_last_n_days (d : str) :
  isdigit d = true ->
  exists m, search n_days_re (lit "last " ++ d ++ lit " days") = Some m
            /\ group 1 (m_caps m) = Some d.
Proof.
  intros H. apply isdigit_iff in H as [Hne Hd].
  unfold search.
  change (lit "last " ++ d ++ lit " days")
    with ("l"%char :: "a"%char :: "s"%char :: "t"%char :: " "%char
          :: d ++ " "%char :: lit "days").
  do 5 (rewrite search_from_skip by (apply n_days_re_nondigit; reflexivity)).
  assert (R : exists st l,
             rmatch n_days_re (MState 5 (d ++ " "%char :: lit "days") [])
             = st :: l /\ caps st = [(1, d)]).
  { unfold n_days_re, plus. cbn [rmatch rest pos caps].
    rewrite run_len_app by (exact Hd || reflexivity).
    assert (El : exists n, length d = S n)
      by (destruct d; [now elim Hne | cbn [length]; eauto]).
    destruct El as [n El]. rewrite El.
    destruct (rep_lengths_greedy_head 1 n ltac:(lia)) as [l ->].
    cbn [map flat_map]. rewrite <- El.
    match goal with
    | |- context [_ ++ flat_map ?f ?t] => generalize (flat_map f t)
    end.
    intros others. unfold set_cap, advance. cbn [pos rest caps].
    replace (5 + length d - 5) with (length d) by lia.
    rewrite firstn_app, skipn_app, Nat.sub_diag.
    rewrite firstn_all, skipn_all. cbn [firstn skipn app]. rewrite app_nil_r.
    destruct (n_days_re_tail (5 + length d) [(1, d)]) as (st & -> & C).
    cbn [app]. eauto. }
  destruct R as (st & l & R & C).
  destruct d as [|c0 d0]; [now elim Hne|].
  cbn [app search_from] in *. rewrite R.
  eexists. split; [reflexivity|]. cbn [m_caps]. rewrite C. reflexivity.
Qed.

(** X7: the text "Last N Days" resolves to the day count N, for every
    N that is not negative and is written with at most 4300 digits (the
    longest literal [int] reads). *)
Theorem last_n_days_round_trip (today : date) (n : Z) :
  (0 <= n)%Z ->
  length (str_of_int n) <= int_max_str_digits ->
  discover_timespan today [lit "Last " ++ str_of_int n ++ lit " Days"]
  = Ok (PyInt n).
Proof.
  intros Hn _. destruct (str_of_int_spec n Hn) as (Dd & Dne & Dv).
  pose proof (isdigit_str_of_int n Hn) as Di.
  unfold discover_timespan. cbv zeta.
  unfold drop_duplicates. cbn [drop_duplicates_seen existsb].
  cbn [map item nth_error bind].
  rewrite !lower_app, (lower_digits _ Dd).
  change (lower (lit "Last ")) with (lit "last ").
  change (lower (lit " Days")) with (lit " days").
  remember (str_of_int n) as d eqn:Ed.
  assert (K : forall p,
             p <> [] -> forallb (fun c => negb (is_digit c)) p = true ->
             contains p (lit "last ") || contains p (lit " days") = false ->
             contains p (lit "last " ++ d ++ lit " days") = false).
  { intros p P1 P2 P3. now rewrite contains_around_digits. }
  rewrite !K by (discriminate || reflexivity).
  cbn [orb]. unfold n_days.
  destruct (search_last_n_days d Di) as (m & -> & ->).
  rewrite (int_of_digits d Di). cbn [bind]. now rewrite Dv.
Qed.

Lemma last_n_days_round_trip_witness :
  discover_timespan (Date 2026 11 3) [lit "Last 30 Days"] = Ok (PyInt 30).
Proof.
  exact (last_n_days_round_trip (Date 2026 11 3) 30 ltac:(lia)
           ltac:(vm_compute; lia)).
Defined.

End DayCount.

Section Routing.

Lemma present_date_dash (today : date) (value_str s : str) :
  present_date today value_str = Ok (Some s) ->
  contains (lit "-") s = true.
Proof.
  unfold present_date.
  destruct (search mm_dd_re value_str) as [m|]; [|discriminate].
  destruct (group 1 (m_caps m)) as [g|]; [|discriminate].
  intros H. repeat bind_inv H. injection H as <-.
  apply contains_skip. reflexivity.
Qed.

Lemma strftime_dash (d : date) : contains (lit "-") (strftime_ymd d) = true.
Proof. unfold strftime_ymd. apply contains_skip. apply contains_prefix. Qed.

(** X8: a text the resolver returns is one of the two rolling-window
    markers, which step 6 hands to the default variant, or it holds a dash
    and step 6 hands it to the variant for start dates; no date ever reaches
    the default variant and no marker the date variant. *)
Theorem text_timespan_routing (self : generator) (today : date)
  (col : list str) (s delivery recipients advertiser_input cron_job : str)
  (sql_elements : list pyval) :
  discover_timespan today col = Ok (PyStr s) ->
  ((s = lit "toStartOfMonth(today())" \/ s = lit "toStartOfYear(today())")
   /\ assemble self delivery recipients advertiser_input (PyStr s) cron_job
        sql_elements
      = assemble_default_dag_json self delivery recipients advertiser_input
          (PyStr s) cron_job sql_elements)
  \/ (contains (lit "-") s = true
      /\ assemble self delivery recipients advertiser_input (PyStr s) cron_job
           sql_elements
         = assemble_str_dag_json self delivery recipients advertiser_input s
             cron_job sql_elements).
Proof.
  intros H.
  assert (Route : forall t, contains (lit "-") t = true ->
            assemble self delivery recipients advertiser_input (PyStr t)
              cron_job sql_elements
            = assemble_str_dag_json self delivery recipients advertiser_input
                t cron_job sql_elements)
    by (intros t Ht; cbn [assemble]; now rewrite Ht).
  destruct col as [|x rows]; [discriminate H|].
  unfold discover_timespan in H. cbv zeta in H.
  destruct (drop_duplicates_head x rows) as [l El]. rewrite El in H.
  cbn [map item nth_error bind] in H.
  destruct (contains (lit "present") (lower x)).
  { destruct (present_date today (lower x)) as [[txt|]|e] eqn:E;
      cbn [bind] in H; try discriminate H.
    injection H as <-. right.
    pose proof (present_date_dash _ _ _ E). auto. }
  destruct (contains (lit "mtd") (lower x)
            || contains (lit "month to date") (lower x)).
  { injection H as <-. left. split; [now left | reflexivity]. }
  destruct (contains (lit "ytd") (lower x)
            || contains (lit "year to date") (lower x)).
  { injection H as <-. left. split; [now right | reflexivity]. }
  destruct (contains (lit "prior day") (lower x)
            || contains (lit "previous day") (lower x)); [discriminate H|].
  destruct (contains (lit "ongoing") (lower x)
            || contains (lit "starting") (lower x)).
  - destruct (ongoing_date today (lower x)) as [[txt|]|e] eqn:E;
      cbn [bind] in H; try discriminate H.
    injection H as <-. right.
    apply ongoing_date_valid in E as (y & m & d & -> & _).
    pose proof (strftime_dash (Date y m d)). auto.
  - destruct (n_days (lower x)) as [[n|]|e]; cbn [bind] in H; discriminate H.
Qed.

Lemma text_timespan_routing_witness :
  assemble sample_generator (lit "email") (lit "a@x.com") (lit "Acme")
    (PyStr (lit "2026-03-10")) (lit "0 6 * * *") []
  = assemble_str_dag_json sample_generator (lit "email") (lit "a@x.com")
      (lit "Acme") (lit "2026-03-10") (lit "0 6 * * *") [].
Proof.
  destruct (text_timespan_routing sample_generator (Date 2026 11 3)
              [lit "Present 03/10"] (lit "2026-03-10") (lit "email")
              (lit "a@x.com") (lit "Acme") (lit "0 6 * * *") [] eq_refl)
    as [[[E|E] _] | [_ R]]; [discriminate E | discriminate E | exact R].
Defined.

End Routing.

(** ** More on the column spec parser *)

Section Aliases.

Lemma replace_char_free (old : ascii) (new s : str) :
  forallb (fun c => negb (Ascii.eqb c old)) new = true ->
  forallb (fun c => negb (Ascii.eqb c old)) (replace_char old new s) = true.
Proof.
  intros Hn. unfold replace_char. induction s as [|c s IH]; [reflexivity|].
  cbn [flat_map]. rewrite forallb_app, IH, andb_true_r.
  destruct (Ascii.eqb c old) eqn:E; [exact Hn|].
  cbn [forallb]. now rewrite E.
Qed.

(** X9: the alias of a requested column never holds a blank (the blanks of
    the name are underscores) and always ends in "_as_column". *)
Theorem alias_is_one_word (texts : list str) (r : column_spec) :
  In r (select_df texts) ->
  forallb (fun c => negb (Ascii.eqb c " ")) (aliases_for_sql r) = true
  /\ endswith (aliases_for_sql r) (lit "_as_column") = true.
Proof.
  intros H. apply select_df_rows in H as [token ->].
  destruct (build_spec_columns token) as (_ & -> & _). split.
  - rewrite forallb_app. rewrite replace_char_free by reflexivity. reflexivity.
  - apply endswith_app.
Qed.

Lemma alias_is_one_word_witness :
  forallb (fun c => negb (Ascii.eqb c " "))
          (aliases_for_sql (build_spec (lit "ad group name"))) = true
  /\ endswith (aliases_for_sql (build_spec (lit "ad group name")))
              (lit "_as_column") = true.
Proof.
  apply (alias_is_one_word [lit "Date, Ad Group Name"]).
  vm_compute. right. left. reflexivity.
Defined.

(** X10: every entry of the GROUP BY list is the expression of one of the
    rows, and one the aggregate test does not flag. *)
Theorem group_by_holds_plain_columns (rows : list column_spec) (e : str) :
  In e (group_by_list rows) ->
  contains_aggregate (Some e) = false
  /\ exists r, In r rows /\ selects_for_sql r = Some e.
Proof.
  unfold group_by_list, group_by_df. intros H.
  apply in_flat_map in H as (r & Hr & He).
  apply filter_In in Hr as [Hin Hf].
  destruct (selects_for_sql r) as [e'|] eqn:E; [|destruct He].
  destruct He as [<-|[]].
  split; [now apply negb_true_iff in Hf | eauto].
Qed.

Lemma group_by_holds_plain_columns_witness :
  contains_aggregate (Some (lit "campaign_name")) = false
  /\ exists r, In r (select_df [lit "Campaign, Clicks, Publisher"])
               /\ selects_for_sql r = Some (lit "campaign_name").
Proof.
  apply (group_by_holds_plain_columns
           (select_df [lit "Campaign, Clicks, Publisher"]) (lit "campaign_name")).
  vm_compute. left. reflexivity.
Defined.

End Aliases.

Section FieldMapper.

Lemma lstrip_lower (s : str) : lstrip (lower s) = lower (lstrip s).
Proof.
  induction s as [|c s IH]; [reflexivity|].
  unfold lower in *. cbn [map lstrip]. rewrite lower_char_space.
  destruct (is_space c); [exact IH | reflexivity].
Qed.

Lemma strip_lower (s : str) : strip (lower s) = lower (strip s).
Proof.
  unfold strip, rstrip. rewrite lstrip_lower.
  unfold lower. rewrite <- map_rev. fold (lower (rev (lstrip s))).
  rewrite lstrip_lower. unfold lower. now rewrite map_rev.
Qed.

Lemma lstrip_blank_app (a s : str) :
  forallb is_space a = true -> lstrip (a ++ s) = lstrip s.
Proof.
  induction a as [|c a IH]; [reflexivity|].
  cbn [forallb]. intros H. apply andb_true_iff in H as [Hc Ha].
  cbn [app lstrip]. rewrite Hc. now apply IH.
Qed.

Lemma rstrip_app_blank (s b : str) :
  forallb is_space b = true -> rstrip (s ++ b) = rstrip s.
Proof.
  intros Hb. unfold rstrip. rewrite rev_app_distr.
  rewrite lstrip_blank_app; [reflexivity|].
  rewrite forallb_forall in *. intros x Hx. apply Hb. now apply in_rev.
Qed.

Lemma strip_app_blank (s b : str) :
  forallb is_space b = true -> strip (s ++ b) = strip s.
Proof.
  intros Hb. unfold strip. induction s as [|c s IH].
  - cbn [app]. rewrite <- (app_nil_r b) at 1.
    rewrite lstrip_blank_app by exact Hb. reflexivity.
  - cbn [app lstrip]. destruct (is_space c); [exact IH|].
    change (c :: s ++ b) with ((c :: s) ++ b). now apply rstrip_app_blank.
Qed.

(** X11: the field mapper looks a name up without regard to case and
    without regard to the blanks around it. *)
Theorem generate_selects_normalises (a s b : str) :
  forallb is_space a = true -> forallb is_space b = true ->
  generate_selects (a ++ s ++ b) = generate_selects s
  /\ generate_selects (lower s) = generate_selects s.
Proof.
  intros Ha Hb. unfold generate_selects. split.
  - unfold strip at 1. rewrite lstrip_blank_app by exact Ha.
    fold (strip (s ++ b)). now rewrite strip_app_blank.
  - now rewrite strip_lower, lower_idem.
Qed.

Lemma generate_selects_normalises_witness :
  generate_selects (lit "  Publisher Name ") = generate_selects (lit "Publisher Name")
  /\ generate_selects (lower (lit "Publisher Name"))
     = generate_selects (lit "Publisher Name").
Proof.
  exact (generate_selects_normalises (lit "  ") (lit "Publisher Name") (lit " ")
           eq_refl eq_refl).
Defined.

End FieldMapper.

Section LidHid.

Lemma split_char_nonempty (sep : ascii) (s : str) : split_char sep s <> [].
Proof.
  induction s as [|c s IH]; cbn [split_char]; [discriminate|].
  destruct (Ascii.eqb c sep); [discriminate|].
  destruct (split_char sep s); discriminate.
Qed.

(** a text splits in more than one part exactly when the separator occurs *)
Lemma split_char_parts (sep : ascii) (s : str) :
  (1 <? length (split_char sep s)) = existsb (fun c => Ascii.eqb c sep) s.
Proof.
  induction s as [|c s IH]; [reflexivity|].
  cbn [split_char existsb]. destruct (Ascii.eqb c sep).
  - pose proof (split_char_nonempty sep s).
    destruct (split_char sep s); [contradiction|reflexivity].
  - cbn [orb]. rewrite <- IH.
    pose proof (split_char_nonempty sep s).
    destruct (split_char sep s); [contradiction|reflexivity].
Qed.

Lemma existsb_map {A B} (f : B -> bool) (g : A -> B) (l : list A) :
  existsb f (map g l) = existsb (fun x => f (g x)) l.
Proof. induction l as [|x l IH]; [reflexivity|]. cbn [map existsb]. now rewrite IH. Qed.

Lemma has_pair_iff (series : list str) :
  existsb (fun p => 1 <? length p) (map (split_char "~") series)
  = existsb (existsb (fun c => Ascii.eqb c "~")) series.
Proof.
  rewrite existsb_map. induction series as [|x l IH]; [reflexivity|].
  cbn [existsb]. now rewrite split_char_parts, IH.
Qed.

(** X12: the column text never makes the generator fail.  It returns its
    six elements as soon as some row of lid_hid holds a tilde, and raises
    [KeyError] (no column 1 in the expanded split) when none does, an empty
    series included. *)
Theorem sql_statement_generator_outcome (df : dataframe) :
  (existsb (existsb (fun c => Ascii.eqb c "~")) (lid_hid df) = true
   /\ exists l, sql_statement_generator df = Ok l /\ length l = 6)
  \/ (existsb (existsb (fun c => Ascii.eqb c "~")) (lid_hid df) = false
      /\ sql_statement_generator df = Raise KeyError).
Proof.
  destruct (existsb (existsb (fun c => Ascii.eqb c "~")) (lid_hid df)) eqn:E.
  - left. split; [reflexivity|].
    rewrite <- has_pair_iff in E.
    destruct (split_expand_first_ok _ E) as (lid & hid & E0 & E1).
    unfold sql_statement_generator. rewrite E0, E1. cbn [bind]. eauto.
  - right. split; [reflexivity|].
    rewrite <- has_pair_iff in E.
    unfold sql_statement_generator, split_expand_first. rewrite E.
    destruct (map (split_char "~") (lid_hid df)) as [|row parts];
      [reflexivity|].
    destruct (existsb (fun p => 0 <? length p) (row :: parts)); [|reflexivity].
    destruct row; reflexivity.
Qed.

(** X13: when the first row of lid_hid reads lid~hid, the third and fourth
    elements the generator returns are that lid and that hid. *)
Theorem lid_hid_split (df : dataframe) (lid hid : str) (rows : list str) :
  lid_hid df = (lid ++ lit "~" ++ hid) :: rows ->
  forallb (fun c => negb (Ascii.eqb c "~")) lid = true ->
  forallb (fun c => negb (Ascii.eqb c "~")) hid = true ->
  exists e0 e1 e4 e5,
    sql_statement_generator df
    = Ok [e0; e1; PyStr lid; PyStr hid; e4; e5].
Proof.
  intros E Hl Hh. unfold sql_statement_generator, split_expand_first.
  rewrite E. cbn [map].
  change (lid ++ lit "~" ++ hid) with (lid ++ "~"%char :: hid).
  rewrite split_char_word_sep by exact Hl.
  rewrite split_char_word by exact Hh.
  cbn [existsb length Nat.ltb Nat.leb orb item nth_error bind]. eauto.
Qed.

Lemma lid_hid_split_witness :
  exists e0 e1 e4 e5,
    sql_statement_generator bounce_ticket
    = Ok [e0; e1; PyStr (lit "12"); PyStr (lit "34"); e4; e5].
Proof.
  exact (lid_hid_split bounce_ticket (lit "12") (lit "34") [] eq_refl eq_refl
           eq_refl).
Defined.

End LidHid.

(** ** More on the job assembler and the export *)

Section AssemblyEdges.


End AssemblyEdges.

Section ExportJson.

Lemma forallb_skipn {A} (P : A -> bool) (k : nat) (l : list A) :
  forallb P l = true -> forallb P (skipn k l) = true.
Proof.
  revert l. induction k as [|k IH]; intros [|x l] H; try exact H; try reflexivity.
  cbn [forallb] in H. apply andb_true_iff in H as [_ H]. cbn [skipn]. now apply IH.
Qed.

(** a replacement brings in no character but those of the new text *)
Lemma replace_keeps (P : ascii -> bool) (old new : str) :
  forallb P new = true ->
  forall fuel s, forallb P s = true ->
                 forallb P (replace_fuel fuel old new s) = true.
Proof.
  intros Hn. induction fuel as [|fuel IH]; intros s Hs; [exact Hs|].
  cbn [replace_fuel]. destruct s as [|c s]; [reflexivity|].
  destruct (startswith old (c :: s)).
  - rewrite forallb_app, Hn. cbn [andb]. apply IH. now apply forallb_skipn.
  - cbn [forallb] in *. apply andb_true_iff in Hs as [Hc Hs].
    rewrite Hc. cbn [andb]. now apply IH.
Qed.

Lemma collapse_one_line (doc : str) :
  forallb (fun c => negb (Ascii.eqb c "010")) (collapse doc) = true.
Proof.
  unfold collapse, replace. apply replace_keeps; [reflexivity|].
  now apply replace_char_free.
Qed.

Lemma json_escape_printable (c : ascii) :
  forallb (fun x => 32 <=? code x) (json_escape_char c) = true.
Proof. destruct c as [[] [] [] [] [] [] [] []]; reflexivity. Qed.

Lemma json_dumps_printable (text : str) :
  forallb (fun x => 32 <=? code x) (json_dumps text) = true.
Proof.
  unfold json_dumps. rewrite !forallb_app. cbn [forallb].
  change (32 <=? code dq) with true. cbn [andb]. rewrite andb_true_r.
  induction text as [|c text IH]; [reflexivity|].
  cbn [flat_map]. now rewrite forallb_app, json_escape_printable, IH.
Qed.

(** X15: when the export returns, the text it printed has no line break
    and the job file holds no character below U+0020: a line break, a tab
    or another C0 control of the document is written escaped (the
    characters from DEL on are written as they are). *)
Theorem job_file_is_one_line (self : generator) (doc json_path : str)
  (w w1 : world) :
  export_json self doc json_path w = Ok w1 ->
  exists json_file content,
    opens w json_path = Ok json_file
    /\ read_file json_file (files w1) = Some content
    /\ forallb (fun c => 32 <=? code c) content = true
    /\ stdout w1 = stdout w ++ [collapse doc]
    /\ forallb (fun c => negb (Ascii.eqb c "010")) (collapse doc) = true.
Proof.
  intros H. destruct (read_written _ _ _ _ _ H) as (f & Ho & Hr & Hs).
  exists f, (json_dumps (collapse doc)).
  split; [exact Ho|]. split; [exact Hr|].
  split; [apply json_dumps_printable|].
  split; [exact Hs | apply collapse_one_line].
Qed.

Lemma job_file_is_one_line_witness :
  exists json_file content,
    opens sample_world (lit "job.json") = Ok json_file
    /\ read_file json_file [(0, json_dumps (lit "{}"))] = Some content
    /\ forallb (fun c => 32 <=? code c) content = true
    /\ [lit "{}"] = [] ++ [collapse ["{"; "010"; "}"]%char]
    /\ forallb (fun c => negb (Ascii.eqb c "010"))
         (collapse ["{"; "010"; "}"]%char) = true.
Proof.
  exact (job_file_is_one_line sample_generator ["{"; "010"; "}"]%char
           (lit "job.json") sample_world
           (World (opens sample_world) [(0, json_dumps (lit "{}"))] [lit "{}"])
           eq_refl).
Defined.

End ExportJson.

Section Advertiser.

(** X17: with a lid~hid pair in the ticket the advertiser lookup always
    returns a name, and the name holds no blank (so that the attachment
    file name has none); without any tilde in lid_hid it raises [KeyError]
    before the store is asked. *)
Theorem get_advertiser_name_outcome (self : generator) (today : date)
  (series : list str) :
  (existsb (existsb (fun c => Ascii.eqb c "~")) series = true
   /\ exists name,
        get_advertiser_name self today series = Ok name
        /\ forallb (fun c => negb (Ascii.eqb c " ")) name = true)
  \/ (existsb (existsb (fun c => Ascii.eqb c "~")) series = false
      /\ get_advertiser_name self today series = Raise KeyError).
Proof.
  destruct (existsb (existsb (fun c => Ascii.eqb c "~")) series) eqn:E;
    rewrite <- has_pair_iff in E.
  - left. split; [reflexivity|].
    destruct (split_expand_first_ok series E) as (lid & hid & E0 & E1).
    unfold get_advertiser_name. rewrite E0, E1. cbn [bind]. cbv zeta.
    destruct (client self _) as [|n0 l0]; [destruct (client self _)|];
      eexists; (split; [reflexivity|]);
      try reflexivity; now apply replace_char_free.
  - right. split; [reflexivity|].
    unfold get_advertiser_name, split_expand_first. rewrite E.
    destruct (map (split_char "~") series) as [|row parts]; [reflexivity|].
    destruct (existsb (fun p => 0 <? length p) (row :: parts)); [|reflexivity].
    destruct row; reflexivity.
Qed.

(** the two replacements undo each other on a text without underscores *)
Lemma underscores_back_to_blanks (s : str) :
  forallb (fun c => negb (Ascii.eqb c "_")) s = true ->
  replace_char "_" (lit " ") (replace_char " " (lit "_") s) = s.
Proof.
  induction s as [|c s IH]; [reflexivity|].
  cbn [forallb]. intros H. apply andb_true_iff in H as [Hc Hs].
  apply negb_true_iff in Hc.
  unfold replace_char in *. cbn [flat_map].
  destruct (Ascii.eqb c " ") eqn:E.
  - apply Ascii.eqb_eq in E. subst c.
    change (lit "_") with ["_"%char]. cbn [app flat_map].
    change (Ascii.eqb "_" "_") with true. cbv iota.
    change (lit " ") with [" "%char]. cbn [app]. f_equal. now apply IH.
  - cbn [app flat_map]. rewrite Hc. cbn [app]. f_equal. now apply IH.
Qed.

Lemma title_from_keeps_free (s : str) (b : bool) :
  forallb (fun c => negb (Ascii.eqb c "_")) s = true ->
  forallb (fun c => negb (Ascii.eqb c "_")) (title_from b s) = true.
Proof.
  revert b. induction s as [|c s IH]; intros b Hu; [reflexivity|].
  cbn [forallb] in Hu. apply andb_true_iff in Hu as [Hcu Hs].
  cbn [title_from forallb]. rewrite (IH _ Hs), andb_true_r.
  clear - Hcu. destruct b;
    destruct c as [[] [] [] [] [] [] [] []]; try reflexivity; discriminate Hcu.
Qed.

(** X18: the advertiser name in the mail subject is the store's name,
    title-cased and with "dotcom" written ".com", with its blanks: the
    underscores the lookup puts in for the file name are taken out again,
    provided the store's name has none of its own. *)
Theorem subject_restores_name (self : generator) (today : date)
  (series : list str) (name_str : str) (more : list str) :
  existsb (existsb (fun c => Ascii.eqb c "~")) series = true ->
  (forall query, client self query = name_str :: more) ->
  forallb (fun c => negb (Ascii.eqb c "_")) name_str = true ->
  exists advertiser_input,
    get_advertiser_name self today series = Ok advertiser_input
    /\ replace_char "_" (lit " ") advertiser_input
       = replace (lit "dotcom") (lit ".com") (title name_str).
Proof.
  intros E Hc Hu. rewrite <- has_pair_iff in E.
  destruct (split_expand_first_ok series E) as (lid & hid & E0 & E1).
  unfold get_advertiser_name. rewrite E0, E1. cbn [bind]. cbv zeta.
  rewrite Hc. eexists. split; [reflexivity|].
  apply underscores_back_to_blanks.
  unfold replace. apply replace_keeps; [reflexivity|].
  now apply title_from_keeps_free.
Qed.

Lemma subject_restores_name_witness :
  exists advertiser_input,
    get_advertiser_name sample_generator (Date 2026 11 3) [lit "12~34"]
    = Ok advertiser_input
    /\ replace_char "_" (lit " ") advertiser_input
       = replace (lit "dotcom") (lit ".com") (title (lit "acme dot com")).
Proof.
  exact (subject_restores_name sample_generator (Date 2026 11 3) [lit "12~34"]
           (lit "acme dot com") [] eq_refl (fun _ => eq_refl) eq_refl).
Defined.

End Advertiser.

(** ** The display label *)

Section Label.

Lemma upper_char_idem (c : ascii) : upper_char (upper_char c) = upper_char c.
Proof. destruct c as [[] [] [] [] [] [] [] []]; reflexivity. Qed.

Lemma upper_char_space (c : ascii) : is_space (upper_char c) = is_space c.
Proof. destruct c as [[] [] [] [] [] [] [] []]; reflexivity. Qed.

Lemma lower_char_alpha (c : ascii) : is_alpha (lower_char c) = is_alpha c.
Proof. destruct c as [[] [] [] [] [] [] [] []]; reflexivity. Qed.

Lemma upper_char_alpha (c : ascii) : is_alpha (upper_char c) = is_alpha c.
Proof. destruct c as [[] [] [] [] [] [] [] []]; reflexivity. Qed.

Lemma split_ws_words (x : str) : Forall word (split_ws x).
Proof.
  induction x as [|c x IH]; [constructor|].
  cbn [split_ws]. destruct (is_space c) eqn:Ec; [exact IH|].
  assert (Wc : forall w, word w \/ w = [] -> word (c :: w)).
  { intros w [[_ Hw]| ->]; (split; [discriminate|]); cbn [forallb];
      rewrite Ec; [exact Hw | reflexivity]. }
  destruct x as [|d x]; [constructor; [auto|constructor]|].
  destruct (is_space d); [constructor; auto|].
  destruct (split_ws (d :: x)) as [|w ws]; [constructor; [auto|constructor]|].
  inversion IH; subst. constructor; auto.
Qed.

Lemma title_from_length (s : str) (b : bool) :
  length (title_from b s) = length s.
Proof.
  revert b. induction s as [|c s IH]; intros b; [reflexivity|].
  cbn [title_from length]. now rewrite IH.
Qed.

Lemma title_from_idem (s : str) (b : bool) :
  title_from b (title_from b s) = title_from b s.
Proof.
  revert b. induction s as [|c s IH]; intros b; [reflexivity|].
  cbn [title_from]. destruct (is_alpha c) eqn:A.
  - destruct b.
    + rewrite lower_char_alpha, A, lower_char_idem. now rewrite IH.
    + rewrite upper_char_alpha, A, upper_char_idem. now rewrite IH.
  - rewrite A. now rewrite IH.
Qed.

Lemma title_from_blank_free (s : str) (b : bool) :
  forallb (fun c => negb (is_space c)) s = true ->
  forallb (fun c => negb (is_space c)) (title_from b s) = true.
Proof.
  revert b. induction s as [|c s IH]; intros b H; [reflexivity|].
  cbn [forallb] in H. apply andb_true_iff in H as [Hc Hs].
  cbn [title_from forallb]. rewrite (IH _ Hs), andb_true_r.
  destruct (is_alpha c); [destruct b|];
    rewrite ?lower_char_space, ?upper_char_space; exact Hc.
Qed.

Lemma lower_blank_free (s : str) :
  forallb (fun c => negb (is_space c)) s = true ->
  forallb (fun c => negb (is_space c)) (lower s) = true.
Proof.
  induction s as [|c s IH]; [reflexivity|].
  cbn [forallb]. intros H. apply andb_true_iff in H as [Hc Hs].
  unfold lower in *. cbn [map forallb]. now rewrite lower_char_space, Hc, IH.
Qed.

Lemma label_word_length (w : str) : length (label_word w) = length w.
Proof.
  unfold label_word. destruct (length w <=? 3).
  - destruct w as [|c s]; [reflexivity|].
    cbn [capitalize length]. unfold lower. now rewrite length_map.
  - apply title_from_length.
Qed.

Lemma label_word_word (w : str) : word w -> word (label_word w).
Proof.
  intros [Hne Hw]. split.
  - intros E. apply (f_equal (@Datatypes.length ascii)) in E.
    rewrite label_word_length in E. destruct w; [now elim Hne|discriminate E].
  - unfold label_word. destruct (length w <=? 3).
    + destruct w as [|c s]; [reflexivity|].
      cbn [forallb] in Hw. apply andb_true_iff in Hw as [Hc Hs].
      cbn [capitalize forallb].
      now rewrite upper_char_space, Hc, lower_blank_free.
    + now apply title_from_blank_free.
Qed.

Lemma label_word_idem (w : str) : label_word (label_word w) = label_word w.
Proof.
  unfold label_word at 1. rewrite label_word_length.
  unfold label_word. destruct (length w <=? 3).
  - destruct w as [|c s]; [reflexivity|].
    cbn [capitalize]. now rewrite upper_char_idem, lower_idem.
  - apply title_from_idem.
Qed.

(** X19: the display label of an ASCII name is the words of the name, each
    cased on its own, one blank apart whatever blanks the name had;
    building the label of a label changes nothing. *)
Theorem label_is_normal (x : str) :
  ascii_text x = true ->
  split_ws (_transform_text x) = map label_word (split_ws x)
  /\ _transform_text (_transform_text x) = _transform_text x.
Proof.
  intros _.
  assert (W : Forall word (map label_word (split_ws x))).
  { pose proof (split_ws_words x) as H. induction H; cbn [map]; constructor;
      auto using label_word_word. }
  assert (S1 : split_ws (_transform_text x) = map label_word (split_ws x))
    by (apply (split_ws_join _ W)).
  split; [exact S1|].
  unfold _transform_text at 1. fold label_word. rewrite S1.
  rewrite map_map. unfold _transform_text. fold label_word.
  f_equal. apply map_ext. apply label_word_idem.
Qed.

Lemma label_is_normal_witness :
  split_ws (_transform_text (lit "  cost per   CLICK"))
  = map label_word (split_ws (lit "  cost per   CLICK"))
  /\ _transform_text (_transform_text (lit "  cost per   CLICK"))
     = _transform_text (lit "  cost per   CLICK").
Proof. exact (label_is_normal (lit "  cost per   CLICK") eq_refl). Defined.

End Label.

(** ** The twelve-hour clock *)

Section BareHour.

Lemma flat_map_nil {A B} (f : A -> list B) (l : list A) :
  (forall x, In x l -> f x = []) -> flat_map f l = [].
Proof.
  induction l as [|x l IH]; intros H; [reflexivity|].
  cbn [flat_map]. rewrite (H x (or_introl eq_refl)). apply IH.
  intros y Hy. apply H. now right.
Qed.

(** without a colon in the text there is no [H:MM] match *)
Lemma time_re_needs_colon (s : str) :
  forallb (fun x => negb (Ascii.eqb ":" x)) s = true ->
  forall at_, search_from time_re at_ s = None.
Proof.
  assert (M : forall t at_ cs,
             forallb (fun x => negb (Ascii.eqb ":" x)) t = true ->
             rmatch time_re (MState at_ t cs) = []).
  { intros t at_ cs Ht. unfold time_re. cbn [rmatch].
    apply flat_map_nil. intros st1 H1.
    unfold plus in H1. cbn [rmatch] in H1.
    apply in_map_iff in H1 as (st' & <- & H1).
    apply in_map_iff in H1 as (k & <- & _).
    unfold chr. cbn [flat_map rmatch set_cap advance rest pos caps].
    assert (R : run_len (Ascii.eqb ":") (skipn k t) = 0).
    { pose proof (forallb_skipn _ k t Ht) as Hk.
      destruct (skipn k t) as [|c u]; [reflexivity|].
      cbn [forallb] in Hk. apply andb_true_iff in Hk as [Hc _].
      apply negb_true_iff in Hc. cbn [run_len]. now rewrite Hc. }
    rewrite R. reflexivity. }
  induction s as [|c s IH]; intros Hs at_; cbn [search_from].
  - now rewrite M.
  - rewrite (M _ _ _ Hs). apply IH.
    cbn [forallb] in Hs. now apply andb_true_iff in Hs.
Qed.

Lemma digits_no_colon (d : str) :
  forallb is_digit d = true ->
  forallb (fun x => negb (Ascii.eqb ":" x)) d = true.
Proof.
  rewrite !forallb_forall. intros H x Hx. apply negb_true_iff.
  destruct (Ascii.eqb ":" x) eqn:E; [|reflexivity].
  apply Ascii.eqb_eq in E. subst x. discriminate (H _ Hx).
Qed.

Lemma am_pm_re_tail (p : nat) (cs : list (nat * str)) (marker : str) :
  marker = lit "am" \/ marker = lit "pm" ->
  exists st l,
    rmatch (Seq (Opt (chr ":"))
             (Seq (Opt (Seq (cls1 is_digit)
                        (Seq (times 2 2 (Ascii.eqb "{")) (chr "}"))))
              (Seq (star is_space)
                   (Group 2 (Alt (text (lit "am")) (text (lit "pm")))))))
           (MState p (" "%char :: marker) cs)
    = st :: l /\ caps st = (2, marker) :: cs.
Proof.
  intros [-> | ->]; do 2 eexists; (split; [reflexivity|]);
    cbn [caps set_cap advance pos rest skipn];
    replace (p + 1 + 1 + 1 - (p + 1)) with 2 by lia; reflexivity.
Qed.

(** the match of a bare hour and its marker *)
Lemma search_bare_hour (d marker : str) :
  isdigit d = true ->
  marker = lit "am" \/ marker = lit "pm" ->
  extract2 am_pm_re (d ++ " "%char :: marker) = (Some d, Some marker).
Proof.
  intros H Hm. apply isdigit_iff in H as [Hne Hd].
  assert (R : exists st l,
             rmatch am_pm_re (MState 0 (d ++ " "%char :: marker) [])
             = st :: l /\ caps st = [(2, marker); (1, d)]).
  { unfold am_pm_re.
    match goal with
    | |- context [rmatch (Seq ?g ?r) ?st0] =>
        change (rmatch (Seq g r) st0) with (flat_map (rmatch r) (rmatch g st0));
        remember r as tail eqn:Etail
    end.
    unfold plus. cbn [rmatch rest pos caps].
    rewrite run_len_app by (exact Hd || reflexivity).
    assert (El : exists n, length d = S n)
      by (destruct d; [now elim Hne | cbn [length]; eauto]).
    destruct El as [n El]. rewrite El.
    destruct (rep_lengths_greedy_head 1 n ltac:(lia)) as [l ->].
    cbn [map flat_map]. rewrite <- El.
    match goal with
    | |- context [_ ++ flat_map ?f ?t] => generalize (flat_map f t)
    end.
    intros others. unfold set_cap, advance. cbn [pos rest caps].
    replace (0 + length d - 0) with (length d) by lia.
    rewrite firstn_app, skipn_app, Nat.sub_diag.
    rewrite firstn_all, skipn_all. cbn [firstn skipn app]. rewrite app_nil_r.
    pose proof (am_pm_re_tail (0 + length d) [(1, d)] marker Hm)
      as (st & l' & E & C).
    rewrite Etail, E. cbn [app]. eauto. }
  destruct R as (st & l & R & C).
  unfold extract2, search.
  destruct d as [|c0 d0]; [now elim Hne|].
  cbn [app search_from] in *. rewrite R. cbn [m_caps]. rewrite C. reflexivity.
Qed.

(** the cron string of a text that is a bare hour and a marker *)
Lemma discover_cron_bare_hour (H : Z) (marker : str) :
  (0 <= H)%Z ->
  marker = lit "am" \/ marker = lit "pm" ->
  discover_cron [str_of_int H ++ " "%char :: marker]
  = Ok (lit "0 "
        ++ str_of_int ((if str_eqb marker (lit "pm") && (H <? 12)%Z
                        then H + 12 else H) mod 24)
        ++ lit " * * 1").
Proof.
  intros HH Hm. destruct (str_of_int_spec H HH) as (Dd & Dne & Dv).
  pose proof (isdigit_str_of_int H HH) as Di.
  remember (str_of_int H) as d eqn:Ed.
  assert (Lw : lower (d ++ " "%char :: marker) = d ++ " "%char :: marker).
  { rewrite lower_app, (lower_digits _ Dd). f_equal.
    destruct Hm as [-> | ->]; reflexivity. }
  assert (K : forall p,
             p <> [] -> forallb (fun c => negb (is_digit c)) p = true ->
             contains p (" "%char :: marker) = false ->
             contains p (d ++ " "%char :: marker) = false).
  { intros p P1 P2 P3.
    change (d ++ " "%char :: marker) with ([] ++ d ++ " "%char :: marker).
    rewrite contains_around_digits by assumption. rewrite P3.
    destruct p; [now elim P1 | reflexivity]. }
  unfold discover_cron. cbv zeta.
  unfold drop_duplicates. cbn [map drop_duplicates_seen existsb].
  rewrite Lw. unfold extract_minute, extract_hour.
  match goal with
  | |- context [extract2_dropna time_re ?rows] =>
      assert (T : extract2_dropna time_re rows = []);
      [| assert (A : extract2_dropna am_pm_re rows = [(d, marker)]) ]
  end.
  { unfold extract2_dropna, extract2, search. cbn [flat_map].
    rewrite time_re_needs_colon; [reflexivity|].
    rewrite forallb_app, (digits_no_colon d Dd).
    destruct Hm as [-> | ->]; reflexivity. }
  { unfold extract2_dropna. cbn [flat_map].
    now rewrite (search_bare_hour d marker Di Hm). }
  rewrite T, A.
  cbn [bind]. rewrite (int_of_digits d Di), Dv. cbn [bind].
  assert (Lm : lower marker = marker) by (destruct Hm as [-> | ->]; reflexivity).
  rewrite Lm.
  assert (Z1 : forall h, adjust_timezone (d ++ " "%char :: marker) h = h).
  { intros h. unfold adjust_timezone.
    rewrite !K by (discriminate || destruct Hm as [-> | ->]; reflexivity).
    reflexivity. }
  assert (Z2 : detect_weekday weekday_map (d ++ " "%char :: marker) 1 = 1%Z).
  { unfold weekday_map. cbn [detect_weekday].
    rewrite !K by (discriminate || destruct Hm as [-> | ->]; reflexivity).
    reflexivity. }
  assert (Z3 : contains (lit "daily") (d ++ " "%char :: marker)
               || contains (lit " day") (d ++ " "%char :: marker) = false).
  { rewrite !K by (discriminate || destruct Hm as [-> | ->]; reflexivity).
    reflexivity. }
  destruct (str_eqb marker (lit "pm") && (H <? 12)%Z);
    cbn [bind item nth_error]; rewrite Z1, Z2, Z3; reflexivity.
Qed.

(** X20: a text that is a bare hour H (of at most 4300 digits) and "pm" is
    scheduled at hour H + 12 when H is below 12 and at hour H otherwise, a
    bare hour and "am" at hour H itself (so "12 am" is scheduled at hour
    12), always modulo 24, at minute 0 of the default weekday. *)
Theorem bare_hour_conversion (H : Z) :
  (0 <= H)%Z ->
  length (str_of_int H) <= int_max_str_digits ->
  discover_cron [str_of_int H ++ lit " pm"]
  = Ok (lit "0 " ++ str_of_int ((if (H <? 12)%Z then H + 12 else H) mod 24)
        ++ lit " * * 1")
  /\ discover_cron [str_of_int H ++ lit " am"]
     = Ok (lit "0 " ++ str_of_int (H mod 24) ++ lit " * * 1").
Proof.
  intros HH _. split.
  - exact (discover_cron_bare_hour H (lit "pm") HH (or_intror eq_refl)).
  - exact (discover_cron_bare_hour H (lit "am") HH (or_introl eq_refl)).
Qed.

Lemma bare_hour_conversion_witness :
  discover_cron [lit "12 pm"] = Ok (lit "0 12 * * 1")
  /\ discover_cron [lit "12 am"] = Ok (lit "0 12 * * 1").
Proof.
  exact (bare_hour_conversion 12 ltac:(lia) ltac:(vm_compute; lia)).
Defined.

End BareHour.

(** ** The recipient list of the ticket *)

Import JiraClient.

Section Recipients.

Lemma run_len_le (cls : ascii -> bool) (s : str) : run_len cls s <= length s.
Proof.
  induction s as [|c s IH]; [apply Nat.le_refl|].
  cbn [run_len length]. destruct (cls c); lia.
Qed.

(** where the first run of a class starts and ends *)
Lemma search_from_plus (cls : ascii -> bool) (s : str) :
  forall at_,
    match search_from (plus cls) at_ s with
    | None => forallb (fun c => negb (cls c)) s = true
    | Some m =>
        exists i run,
          m_start m = at_ + i /\ m_end m = at_ + i + run /\ 1 <= run
          /\ i + run <= length s
          /\ forallb (fun c => negb (cls c)) (firstn i s) = true
    end.
Proof.
  induction s as [|c s IH]; intros at_; [reflexivity|].
  cbn [search_from]. unfold plus at 1. cbn [rmatch rest run_len].
  destruct (cls c) eqn:E.
  - destruct (rep_lengths_greedy_head 1 (run_len cls s) ltac:(lia)) as [l ->].
    cbn [map advance pos m_start m_end].
    exists 0, (S (run_len cls s)).
    pose proof (run_len_le cls s). cbn [length firstn forallb].
    repeat split; lia.
  - change (rep_lengths true 1 None 0) with (@nil nat). cbn [map].
    specialize (IH (S at_)).
    destruct (search_from (plus cls) (S at_) s) as [m|].
    + destruct IH as (i & run & A & B & C & D & F).
      exists (S i), run. cbn [length firstn forallb]. rewrite E, F.
      repeat split; lia.
    + cbn [forallb]. now rewrite E, IH.
Qed.

Lemma forallb_firstn {A} (P : A -> bool) (k : nat) (l : list A) :
  forallb P l = true -> forallb P (firstn k l) = true.
Proof.
  revert l. induction k as [|k IH]; intros [|x l] H; try reflexivity.
  cbn [forallb] in H. apply andb_true_iff in H as [Hx H].
  cbn [firstn forallb]. now rewrite Hx, IH.
Qed.

(** the pieces between the runs of a class hold no character of the class *)
Lemma pieces_between_runs (cls : ascii -> bool) (fuel : nat) :
  forall s at_,
    length s < fuel ->
    Forall (fun piece => forallb (fun c => negb (cls c)) piece = true)
           (split_at (finditer_from fuel (plus cls) at_ s) at_ s).
Proof.
  induction fuel as [|fuel IH]; intros s at_ H; [lia|].
  cbn [finditer_from]. pose proof (search_from_plus cls s at_) as S.
  destruct (search_from (plus cls) at_ s) as [m|].
  - destruct S as (i & run & A & B & C & D & F).
    replace (m_end m =? m_start m) with false
      by (symmetry; apply Nat.eqb_neq; lia).
    replace (m_end m - at_) with (i + run) by lia.
    replace (length s <? i + run) with false
      by (symmetry; apply Nat.ltb_ge; lia).
    cbn [split_at].
    replace (m_start m - at_) with i by lia.
    replace (m_end m - at_) with (i + run) by lia.
    constructor; [exact F|].
    replace (m_end m) with (at_ + (i + run)) by lia.
    apply IH. rewrite length_skipn. lia.
  - cbn [split_at]. constructor; [exact S | constructor].
Qed.

(** the pieces of a split are made of characters of the text *)
Lemma pieces_keep (P : ascii -> bool) (ms : list rematch) :
  forall from s, forallb P s = true ->
                 Forall (fun piece => forallb P piece = true) (split_at ms from s).
Proof.
  induction ms as [|m ms IH]; intros from s H; cbn [split_at].
  - constructor; [exact H | constructor].
  - constructor; [now apply forallb_firstn|].
    apply IH. now apply forallb_skipn.
Qed.

Lemma forallb_join (P : ascii -> bool) (sep : str) (parts : list str) :
  forallb P sep = true ->
  Forall (fun piece => forallb P piece = true) parts ->
  forallb P (join sep parts) = true.
Proof.
  intros Hs H. induction H as [|p parts Hp Hr IH]; [reflexivity|].
  destruct parts as [|p' parts]; [exact Hp|].
  change (join sep (p :: p' :: parts)) with (p ++ sep ++ join sep (p' :: parts)).
  now rewrite !forallb_app, Hp, Hs, IH.
Qed.

Lemma replace_regex_keeps (P : ascii -> bool) (pat : regex) (repl cell : str) :
  forallb P repl = true -> forallb P cell = true ->
  forallb P (str_replace_regex pat repl cell) = true.
Proof.
  intros Hr Hc. unfold str_replace_regex, Re.split.
  apply forallb_join; [exact Hr | now apply pieces_keep].
Qed.

(** X21: the recipient list leaves the ticket reader without any line
    break: every run of line breaks has become a comma. *)
Theorem recipients_on_one_line (cell : str) :
  forallb (fun c => negb (is_newline c)) (clean_recipient_list cell) = true.
Proof.
  unfold clean_recipient_list. cbv zeta.
  do 2 (apply replace_regex_keeps; [reflexivity|]).
  unfold str_replace_regex, Re.split, finditer, newlines_re.
  apply forallb_join; [reflexivity|].
  apply pieces_between_runs. lia.
Qed.

Lemma search_from_none (r : regex) (s : str) :
  (forall k at_, rmatch r (MState at_ (skipn k s) []) = []) ->
  forall at_, search_from r at_ s = None.
Proof.
  induction s as [|c s IH]; intros H at_; cbn [search_from];
    pose proof (H 0 at_) as H0; cbn [skipn] in H0; rewrite H0.
  - reflexivity.
  - apply IH. intros k a. exact (H (S k) a).
Qed.

Lemma split_no_match (r : regex) (s : str) :
  (forall k at_, rmatch r (MState at_ (skipn k s) []) = []) ->
  Re.split r s = [s].
Proof.
  intros H. unfold Re.split, finditer. cbn [finditer_from].
  now rewrite (search_from_none r s H).
Qed.

Lemma plus_no_match (cls : ascii -> bool) (s : str) :
  forallb (fun c => negb (cls c)) s = true ->
  forall k at_, rmatch (plus cls) (MState at_ (skipn k s) []) = [].
Proof.
  intros H k at_. unfold plus. cbn [rmatch rest].
  pose proof (forallb_skipn _ k s H) as Hk.
  destruct (skipn k s) as [|c t]; [reflexivity|].
  cbn [forallb] in Hk. apply andb_true_iff in Hk as [Hc _].
  apply negb_true_iff in Hc. cbn [run_len]. now rewrite Hc.
Qed.

Lemma comma_blanks_no_match (s : str) :
  forallb (fun c => negb (Ascii.eqb "," c)) s = true ->
  forall k at_, rmatch comma_blanks_re (MState at_ (skipn k s) []) = [].
Proof.
  intros H k at_. unfold comma_blanks_re, star. cbn [rmatch rest].
  apply flat_map_nil. intros st1 H1.
  apply in_map_iff in H1 as (j & <- & _).
  apply flat_map_nil. intros st2 H2. exfalso.
  unfold chr in H2. cbn [rmatch advance rest] in H2.
  rewrite skipn_skipn in H2.
  pose proof (forallb_skipn _ (j + k) s H) as Hk.
  destruct (skipn (j + k) s) as [|c t]; [destruct H2|].
  cbn [forallb] in Hk. apply andb_true_iff in Hk as [Hc _].
  apply negb_true_iff in Hc. cbn [run_len] in H2. rewrite Hc in H2.
  destruct H2.
Qed.

(** X22: a recipient cell with no comma and no line break, a single
    address for one, goes through the three replacements unchanged. *)
Theorem single_recipient_unchanged (cell : str) :
  forallb (fun c => negb (Ascii.eqb "," c)) cell = true ->
  forallb (fun c => negb (is_newline c)) cell = true ->
  clean_recipient_list cell = cell.
Proof.
  intros Hc Hn. unfold clean_recipient_list, str_replace_regex. cbv zeta.
  rewrite (split_no_match newlines_re cell (plus_no_match _ _ Hn)).
  cbn [join].
  rewrite (split_no_match comma_blanks_re cell (comma_blanks_no_match _ Hc)).
  cbn [join].
  rewrite (split_no_match commas_re cell (plus_no_match _ _ Hc)).
  reflexivity.
Qed.

Lemma single_recipient_unchanged_witness :
  clean_recipient_list (lit "ops team@x.com") = lit "ops team@x.com".
Proof.
  exact (single_recipient_unchanged (lit "ops team@x.com") eq_refl eq_refl).
Defined.

End Recipients.
